(** * gitDataSync: the replication engine of src/gitDataSync.js

    A shallow embedding of the module that keeps the local database file
    [./data/app.db] in step with [data/app.db] of a GitHub repository.

    The module's functions are asynchronous: each [await] on the GitHub
    client suspends the running function and hands control back to Node's
    event loop.  They are embedded as terms of a small free monad [Prog]
    whose [Await] nodes are exactly the suspension points; the code between
    two awaits runs atomically.  Two interpreters are given:

    - [run] executes one call to completion against a remote client
      (nothing else interleaved), recording every remote call in a trace;
    - [step] is the event loop: timers, the periodic tick, signals, direct
      calls and completions of pending remote calls, in any order.

    [Read] and [Update] are the synchronous accesses to the module's
    variables, the local file system and the runtime's registrations.

    The GitHub client (octokit, from ./githubClient) is an external
    collaborator.  It is a parameter of the development: an arbitrary
    deterministic state machine answering each call with a value or an
    error.  [console.log] and friends have no effect on the engine and are
    left out. *)

From Stdlib Require Import Strings.String Strings.Ascii Strings.Byte.
From Stdlib Require Import List ZArith NArith Bool Lia Arith.
Import ListNotations.
Local Open Scope string_scope.
Local Open Scope list_scope.

(** ** Values exchanged with the platform *)

(** A Node [Buffer]. *)
Definition Buffer := list byte.

(** The base64 text of a buffer ([buf.toString('base64')]); decoding it
    with [Buffer.from(_, 'base64')] gives the buffer back. *)
Inductive Base64 : Type := base64 (raw : Buffer).

Definition from_base64 (c : Base64) : Buffer := let (raw) := c in raw.

(** Truthiness of a base64 string: the text is empty exactly when the
    buffer is. *)
Definition b64_truthy (c : Base64) : bool :=
  match from_base64 c with [] => false | _ :: _ => true end.

(** [Buffer.from(s, 'binary')]. *)
Definition from_binary (s : string) : Buffer := list_byte_of_string s.

(** A thrown JavaScript error: [e.status] (undefined for a plain [Error])
    and [e.message]. *)
Record JsError : Type := mkError { status : option Z; message : string }.

(** [new Error(msg)]. *)
Definition Error (msg : string) : JsError := mkError None msg.

(** [e.status === n] *)
Definition status_is (e : JsError) (n : Z) : bool :=
  match status e with Some s => Z.eqb s n | None => false end.

(** [e.status && e.status !== n] *)
Definition status_truthy_not (e : JsError) (n : Z) : bool :=
  match status e with
  | Some s => negb (Z.eqb s 0) && negb (Z.eqb s n)
  | None => false
  end.

(** [hay.includes(needle)] *)
Fixpoint includes (needle hay : string) : bool :=
  if prefix needle hay then true
  else match hay with
       | EmptyString => false
       | String _ rest => includes needle rest
       end.

(** The text GitHub answers with when an update names no blob sha:
    ["sha" wasn't supplied], quotes included. *)
Definition sha_wasnt_supplied : string :=
  String "034" ("sha" ++ String "034" " wasn't supplied").

(** [e.status === 422 && e.message && e.message.includes(`"sha" wasn't supplied`)] *)
Definition is_sha_missing (e : JsError) : bool :=
  status_is e 422
  && negb (String.eqb (message e) "")
  && includes sha_wasnt_supplied (message e).

(** [s || null] for a string that may be empty or undefined. *)
Definition or_null (s : string) : option string :=
  if String.eqb s "" then None else Some s.

(** Truthiness of an optional string argument ([if (sha) ...]). *)
Definition truthy (o : option string) : option string :=
  match o with Some s => or_null s | None => None end.

(** ** The remote client *)

(** [data] of [octokit.repos.getContent]: an array for a directory, an
    object with a [sha] for a file. *)
Inductive ContentData : Type :=
| DirListing
| FileData (sha : string).

(** [resp.data] of the raw blob request. *)
Inductive Body : Type :=
| BodyBuffer (b : Buffer)
| BodyString (s : string)
| BodyObject (content : Base64) (encoding : string)
| BodyOther.

(** [data] of [createOrUpdateFileContents]; only [data.content.sha] is read. *)
Record PutData : Type := mkPutData { content_sha : string }.

(** The parameters of [createOrUpdateFileContents] that vary (owner, repo,
    path and branch are fixed by the configuration). *)
Record PutParams : Type :=
  mkParams { p_message : string; p_content : Base64; p_sha : option string }.

(** The calls the module makes on the client. *)
Inductive Call : Type :=
| GetContent
| GetBlob (file_sha : string)
| CreateOrUpdateFileContents (params : PutParams)
| CreateBlob (content : Base64)
| GetRef
| GetCommit (commit_sha : string)
| CreateTree (base_tree blob_sha : string)
| CreateCommit (msg tree parent : string)
| UpdateRef (sha : string).

(** What each call resolves to.  The git-data calls resolve to the one sha
    the module reads from the answer ([data.sha], [data.object.sha],
    [data.tree.sha]). *)
Definition resp (c : Call) : Type :=
  match c with
  | GetContent => ContentData
  | GetBlob _ => Body
  | CreateOrUpdateFileContents _ => PutData
  | UpdateRef _ => unit
  | CreateBlob _ | GetRef | GetCommit _ | CreateTree _ _ | CreateCommit _ _ _ => string
  end.

(** A settled promise. *)
Definition Settled (A : Type) : Type := (JsError + A)%type.

(** Calls that change the repository. *)
Definition is_write (c : Call) : bool :=
  match c with
  | CreateOrUpdateFileContents _ | CreateBlob _ | CreateTree _ _
  | CreateCommit _ _ _ | UpdateRef _ => true
  | GetContent | GetBlob _ | GetRef | GetCommit _ => false
  end.

Definition is_put (c : Call) : bool :=
  match c with CreateOrUpdateFileContents _ => true | _ => false end.

Definition is_blob_path (c : Call) : bool :=
  match c with
  | CreateBlob _ | GetRef | GetCommit _ | CreateTree _ _
  | CreateCommit _ _ _ | UpdateRef _ => true
  | _ => false
  end.

(** ** Module state, file system and runtime registrations *)

(** The signals the module registers a handler for (lines 216-217). *)
Inductive Signal : Type := SIGINT | SIGTERM.

Record St : Type := mkSt {
  lastKnownSha : option string;   (* let lastKnownSha = null *)
  dirty : bool;                   (* let dirty = false *)
  timer : option nat;             (* let timer = null; a Timeout handle *)
  localDir : bool;                (* fs.existsSync(path.dirname(LOCAL_DB_PATH)) *)
  localDb : option Buffer;        (* the file at LOCAL_DB_PATH, if any *)
  timeouts : list nat;            (* setTimeout callbacks not yet fired *)
  nextHandle : nat;               (* next Timeout handle *)
  intervals : nat;                (* setInterval registrations *)
  sigintHandlers : nat;           (* process.on('SIGINT', ...) registrations *)
  sigtermHandlers : nat;          (* process.on('SIGTERM', ...) registrations *)
  exited : bool                   (* process.exit was called *)
}.

Definition set_lastKnownSha (v : option string) (s : St) : St :=
  mkSt v (dirty s) (timer s) (localDir s) (localDb s) (timeouts s)
       (nextHandle s) (intervals s) (sigintHandlers s) (sigtermHandlers s) (exited s).
Definition set_dirty (v : bool) (s : St) : St :=
  mkSt (lastKnownSha s) v (timer s) (localDir s) (localDb s) (timeouts s)
       (nextHandle s) (intervals s) (sigintHandlers s) (sigtermHandlers s) (exited s).
Definition set_timer (v : option nat) (s : St) : St :=
  mkSt (lastKnownSha s) (dirty s) v (localDir s) (localDb s) (timeouts s)
       (nextHandle s) (intervals s) (sigintHandlers s) (sigtermHandlers s) (exited s).
Definition mkdirSync (s : St) : St :=
  mkSt (lastKnownSha s) (dirty s) (timer s) true (localDb s) (timeouts s)
       (nextHandle s) (intervals s) (sigintHandlers s) (sigtermHandlers s) (exited s).
Definition writeFileSync (b : Buffer) (s : St) : St :=
  mkSt (lastKnownSha s) (dirty s) (timer s) (localDir s) (Some b) (timeouts s)
       (nextHandle s) (intervals s) (sigintHandlers s) (sigtermHandlers s) (exited s).
(** [setTimeout(cb, DEBOUNCE_MS)]: schedules the callback under a fresh handle. *)
Definition setTimeout (s : St) : St :=
  mkSt (lastKnownSha s) (dirty s) (Some (nextHandle s)) (localDir s) (localDb s)
       (timeouts s ++ [nextHandle s]) (S (nextHandle s)) (intervals s)
       (sigintHandlers s) (sigtermHandlers s) (exited s).
Definition drop_timeout (h : nat) (s : St) : St :=
  mkSt (lastKnownSha s) (dirty s) (timer s) (localDir s) (localDb s)
       (filter (fun h' => negb (Nat.eqb h' h)) (timeouts s))
       (nextHandle s) (intervals s) (sigintHandlers s) (sigtermHandlers s) (exited s).
Definition setInterval (s : St) : St :=
  mkSt (lastKnownSha s) (dirty s) (timer s) (localDir s) (localDb s) (timeouts s)
       (nextHandle s) (S (intervals s)) (sigintHandlers s) (sigtermHandlers s) (exited s).
(** [process.on(sig, handler)]: one more handler registered for [sig]. *)
Definition process_on (sig : Signal) (s : St) : St :=
  match sig with
  | SIGINT =>
      mkSt (lastKnownSha s) (dirty s) (timer s) (localDir s) (localDb s) (timeouts s)
           (nextHandle s) (intervals s) (S (sigintHandlers s)) (sigtermHandlers s)
           (exited s)
  | SIGTERM =>
      mkSt (lastKnownSha s) (dirty s) (timer s) (localDir s) (localDb s) (timeouts s)
           (nextHandle s) (intervals s) (sigintHandlers s) (S (sigtermHandlers s))
           (exited s)
  end.
(** The number of handlers registered for [sig]. *)
Definition handlers (sig : Signal) (s : St) : nat :=
  match sig with SIGINT => sigintHandlers s | SIGTERM => sigtermHandlers s end.
Definition process_exit (s : St) : St :=
  mkSt (lastKnownSha s) (dirty s) (timer s) (localDir s) (localDb s) (timeouts s)
       (nextHandle s) (intervals s) (sigintHandlers s) (sigtermHandlers s) true.

(** The state of a freshly loaded module over a given file system. *)
Definition loaded (dir : bool) (db : option Buffer) : St :=
  mkSt None false None dir db [] 0 0 0 0 false.

(** [const SIZE_WARN_LIMIT = 90 * 1024 * 1024] *)
Definition SIZE_WARN_LIMIT : N := 90 * 1024 * 1024.

(** [buf.length] *)
Definition size (b : Buffer) : N := N.of_nat (length b).

Arguments size : simpl never.
Arguments SIZE_WARN_LIMIT : simpl never.

(** ** Asynchronous programs *)

Inductive Prog (A : Type) : Type :=
| Ret (a : A)
| Throw (e : JsError)
| Read (k : St -> Prog A)
| Update (f : St -> St) (k : Prog A)
| Await (c : Call) (k : Settled (resp c) -> Prog A).

Arguments Ret {A} a.
Arguments Throw {A} e.
Arguments Read {A} k.
Arguments Update {A} f k.
Arguments Await {A} c k.

Fixpoint bind {A B : Type} (p : Prog A) (f : A -> Prog B) : Prog B :=
  match p with
  | Ret a => f a
  | Throw e => Throw e
  | Read k => Read (fun s => bind (k s) f)
  | Update g k => Update g (bind k f)
  | Await c k => Await c (fun r => bind (k r) f)
  end.

(** [try { p } catch (e) { h e }] *)
Fixpoint try_catch {A : Type} (p : Prog A) (h : JsError -> Prog A) : Prog A :=
  match p with
  | Ret a => Ret a
  | Throw e => h e
  | Read k => Read (fun s => try_catch (k s) h)
  | Update g k => Update g (try_catch k h)
  | Await c k => Await c (fun r => try_catch (k r) h)
  end.

Declare Scope prog_scope.
Delimit Scope prog_scope with prog.
Notation "x <- p ;; q" := (bind p (fun x => q))
  (at level 61, p at next level, right associativity) : prog_scope.
Notation "p ;; q" := (bind p (fun _ => q))
  (at level 61, right associativity) : prog_scope.
Notation "'try' p 'catch' e => h" := (try_catch p (fun e => h))
  (at level 61, p at level 200, e name, h at level 200) : prog_scope.
Local Open Scope prog_scope.

(** [await octokit....(...)]: suspends, then returns the value or throws. *)
Definition await (c : Call) : Prog (resp c) :=
  Await c (fun r => match r with inl e => Throw e | inr v => Ret v end).

Definition get {X : Type} (f : St -> X) : Prog X := Read (fun s => Ret (f s)).
Definition modify (f : St -> St) : Prog unit := Update f (Ret tt).

(** The client's operations, as the module calls them. *)
Definition getContent : Prog ContentData := await GetContent.
Definition getBlob (file_sha : string) : Prog Body := await (GetBlob file_sha).
Definition createOrUpdateFileContents (params : PutParams) : Prog PutData :=
  await (CreateOrUpdateFileContents params).
Definition createBlob (content : Base64) : Prog string := await (CreateBlob content).
Definition getRef : Prog string := await GetRef.
Definition getCommit (commit_sha : string) : Prog string := await (GetCommit commit_sha).
Definition createTree (base_tree blob_sha : string) : Prog string :=
  await (CreateTree base_tree blob_sha).
Definition createCommit (msg tree parent : string) : Prog string :=
  await (CreateCommit msg tree parent).
Definition updateRef (sha : string) : Prog unit := await (UpdateRef sha).

(** ** The module's functions

    In the order of src/gitDataSync.js; the line numbers are those of the
    file. *)

(** Lines 33-47. *)
Definition getRemoteSha : Prog (option string) :=
  try (data <- getContent ;;
       match data with
       | DirListing => Throw (Error "Expected file, found directory at data/app.db")
       | FileData sha => Ret (or_null sha)
       end)
  catch e => if status_is e 404 then Ret None else Throw e.

(** Lines 58-62.  The buffer [fetchRemoteDbBuffer] reads out of the blob answer: a
    Buffer as it is, a string as latin-1 bytes, an object with a truthy
    [content] and [encoding === 'base64'] decoded; nothing otherwise. *)
Definition blob_buffer (body : Body) : option Buffer :=
  match body with
  | BodyBuffer b => Some b
  | BodyString s => Some (from_binary s)
  | BodyObject content encoding =>
      if b64_truthy content && String.eqb encoding "base64"
      then Some (from_base64 content)
      else None
  | BodyOther => None
  end.

(** Lines 49-63. *)
Definition fetchRemoteDbBuffer : Prog (option (Buffer * string)) :=
  sha <- getRemoteSha ;;
  match sha with
  | None => Ret None
  | Some sha =>
      body <- getBlob sha ;;
      match blob_buffer body with
      | Some buf => Ret (Some (buf, sha))
      | None => Throw (Error "Unable to fetch DB blob content")
      end
  end.

(** Lines 65-90. *)
Definition putFileContents (contentBase64 : Base64) (msg : string)
    (sha : option string) : Prog PutData :=
  let params := mkParams msg contentBase64 (truthy sha) in
  try createOrUpdateFileContents params
  catch e =>
    (if is_sha_missing e then
       remoteSha <- getRemoteSha ;;
       match remoteSha with
       | Some _ =>
           createOrUpdateFileContents (mkParams msg contentBase64 remoteSha)
       | None => Throw e
       end
     else Throw e).

(** Lines 92-138.  Returns [(commitSha, blobSha)]. *)
Definition commitRawBlob (buffer : Buffer) (msg : string) : Prog (string * string) :=
  blob <- createBlob (base64 buffer) ;;
  baseCommitSha <- getRef ;;
  baseTree <- getCommit baseCommitSha ;;
  tree <- createTree baseTree blob ;;
  newCommit <- createCommit msg tree baseCommitSha ;;
  updateRef newCommit ;;
  Ret (newCommit, blob).

Section Engine.

(** [configError] of ./githubClient, which builds the error reported when
    the repository or branch cannot be written. *)
Variable configError : string -> JsError.

(** Lines 148-218.  [fs.existsSync(p) && fs.statSync(p).size > 0] is the
    match on a non-empty file. *)
Definition initDataSync : Prog unit :=
  localDirExists <- get localDir ;;
  (if localDirExists then Ret tt else modify mkdirSync) ;;
  remote <- (try fetchRemoteDbBuffer
             catch e => if status_truthy_not e 404 then Throw e else Ret None) ;;
  match remote with
  | Some (buf, sha) =>
      modify (writeFileSync buf) ;;
      modify (set_lastKnownSha (Some sha))
  | None =>
      db <- get localDb ;;
      match db with
      | Some ((_ :: _) as buf) =>
          try
            (if (size buf <=? SIZE_WARN_LIMIT)%N then
               data <- putFileContents (base64 buf) "Initialize data/app.db from local" None ;;
               modify (set_lastKnownSha (or_null (content_sha data)))
             else
               commitRawBlob buf "Initialize data/app.db from local (large file)" ;;
               sha <- getRemoteSha ;;
               modify (set_lastKnownSha sha))
          catch e =>
            if status_is e 404
            then Throw (configError "Failed to create remote data/app.db: repository/branch not found or token lacking permission.")
            else Throw e
      | Some [] => Ret tt
      | None => modify (writeFileSync [])
      end
  end ;;
  modify setInterval ;;
  modify (process_on SIGINT) ;;
  modify (process_on SIGTERM).

(** Lines 220-227.  The callback handed to [setTimeout] is [onTimeout]
    below. *)
Definition markDataDirty : Prog unit :=
  modify (set_dirty true) ;;
  t <- get timer ;;
  match t with
  | Some _ => Ret tt
  | None => modify setTimeout
  end.

(** Lines 234-315.  In the branch of a present remote, [fallback] tells
    whether control falls out of the first try/catch (lines 251-271) into
    the blob commit (lines 273-283) instead of returning. *)
Definition syncNow (force : bool) : Prog unit :=
  d <- get dirty ;;
  if negb d && negb force then Ret tt else
  db <- get localDb ;;
  match db with
  | None => Ret tt
  | Some buf =>
      let baseMessage := "Sync data/app.db" in
      remoteSha <- getRemoteSha ;;
      match remoteSha with
      | Some _ =>
          fallback <-
            (try (data <- putFileContents (base64 buf) baseMessage remoteSha ;;
                  modify (set_lastKnownSha (or_null (content_sha data))) ;;
                  modify (set_dirty false) ;;
                  Ret false)
             catch e =>
               if is_sha_missing e then
                 refreshedSha <- getRemoteSha ;;
                 match refreshedSha with
                 | Some _ =>
                     data <- putFileContents (base64 buf) baseMessage refreshedSha ;;
                     modify (set_lastKnownSha (or_null (content_sha data))) ;;
                     modify (set_dirty false) ;;
                     Ret false
                 | None => Ret true
                 end
               else Ret true) ;;
          if fallback then
            commitRawBlob buf baseMessage ;;
            sha <- getRemoteSha ;;
            modify (set_lastKnownSha sha) ;;
            modify (set_dirty false)
          else Ret tt
      | None =>
          if (size buf =? 0)%N then modify (set_dirty false)
          else
            try (data <- putFileContents (base64 buf) "Create data/app.db from local" None ;;
                 modify (set_lastKnownSha (or_null (content_sha data))) ;;
                 modify (set_dirty false))
            catch e =>
              (commitRawBlob buf "Create data/app.db from local (blob commit)" ;;
               sha <- getRemoteSha ;;
               modify (set_lastKnownSha sha) ;;
               modify (set_dirty false))
      end
  end.

(** Lines 210-215.  The handler registered for SIGINT and SIGTERM. *)
Definition shutdown : Prog unit :=
  d <- get dirty ;;
  (if d then try syncNow true catch e => Ret tt else Ret tt) ;;
  modify process_exit.

End Engine.

(** ** Running one call to completion *)

(** One remote call as the trace records it: the call and whether it
    resolved. *)
Definition Entry : Type := (Call * bool)%type.

Definition settled_ok {A : Type} (r : Settled A) : bool :=
  match r with inr _ => true | inl _ => false end.

Record Run (R A : Type) : Type := mkRun {
  result : Settled A;     (* returned value or thrown error *)
  final : St;             (* module state and file system afterwards *)
  store : R;              (* the remote afterwards *)
  trace : list Entry      (* the remote calls made, in order *)
}.
Arguments mkRun {R A}.
Arguments result {R A}.
Arguments final {R A}.
Arguments store {R A}.
Arguments trace {R A}.

Section Semantics.

Variable R : Type.
(** The remote: it answers a call in a state with a settled promise and a
    next state. *)
Variable client : forall c : Call, R -> Settled (resp c) * R.

(** [run_from tr p s r]: runs [p] from module state [s] and remote state
    [r], [tr] being the calls made so far. *)
Fixpoint run_from {A : Type} (tr : list Entry) (p : Prog A) (s : St) (r : R)
    : Run R A :=
  match p with
  | Ret a => mkRun (inr a) s r tr
  | Throw e => mkRun (inl e) s r tr
  | Read k => run_from tr (k s) s r
  | Update f k => run_from tr k (f s) r
  | Await c k =>
      let (x, r') := client c r in
      run_from (tr ++ [(c, settled_ok x)]) (k x) s r'
  end.

Definition run {A : Type} (p : Prog A) (s : St) (r : R) : Run R A :=
  run_from [] p s r.

End Semantics.

Arguments run_from {R} client {A} tr p s r.
Arguments run {R} client {A} p s r.

(** ** The event loop *)

(** A call of an asynchronous function runs synchronously up to its first
    [await]. *)
Inductive Outcome (A : Type) : Type :=
| Finished (r : Settled A)
| Suspended (c : Call) (k : Settled (resp c) -> Prog A).
Arguments Finished {A} r.
Arguments Suspended {A} c k.

Fixpoint start {A : Type} (p : Prog A) (s : St) : St * Outcome A :=
  match p with
  | Ret a => (s, Finished (inr a))
  | Throw e => (s, Finished (inl e))
  | Read k => start (k s) s
  | Update f k => start k (f s)
  | Await c k => (s, Suspended c k)
  end.

(** Which exported function or handler a suspended call belongs to. *)
Inductive Kind : Type := KInit | KPush | KShutdown.

(** A suspended call: the remote call it waits for and what it does with
    the answer. *)
Record Task : Type := mkTask {
  kind : Kind;
  awaiting : Call;
  resume : Settled (resp awaiting) -> Prog unit
}.

(** A task that is inside [syncNow]. *)
Definition is_push (t : Task) : bool :=
  match kind t with KInit => false | KPush | KShutdown => true end.

Inductive Event : Type :=
| EvInit                    (* the host calls initDataSync() *)
| EvMarkDirty               (* the host calls markDataDirty() *)
| EvSyncNow (force : bool)  (* the host calls syncNow(force) *)
| EvTimeout (h : nat)       (* the setTimeout callback with handle h fires *)
| EvTick                    (* a setInterval callback fires *)
| EvSignal (sig : Signal)   (* the signal sig is delivered *)
| EvSettle (i : nat).       (* the remote call of the i-th pending task settles *)

Section EventLoop.

Variable configError : string -> JsError.
Variable R : Type.
Variable client : forall c : Call, R -> Settled (resp c) * R.

Record Loop : Type := mkLoop {
  state : St;
  repo : R;
  log : list Entry;
  inflight : list Task
}.

(** Calls an asynchronous function; if it suspends, it joins the pending
    tasks.  (Rejections are logged by the callers' handlers and dropped.) *)
Definition spawn (kd : Kind) (p : Prog unit) (l : Loop) : Loop :=
  match start p (state l) with
  | (s, Finished _) => mkLoop s (repo l) (log l) (inflight l)
  | (s, Suspended c k) => mkLoop s (repo l) (log l) (inflight l ++ [mkTask kd c k])
  end.

Definition with_state (f : St -> St) (l : Loop) : Loop :=
  mkLoop (f (state l)) (repo l) (log l) (inflight l).

Fixpoint remove_nth {A : Type} (i : nat) (l : list A) : list A :=
  match l, i with
  | [], _ => []
  | _ :: l', O => l'
  | x :: l', S i' => x :: remove_nth i' l'
  end.

Fixpoint replace_nth {A : Type} (i : nat) (y : A) (l : list A) : list A :=
  match l, i with
  | [], _ => []
  | _ :: l', O => y :: l'
  | x :: l', S i' => x :: replace_nth i' y l'
  end.

(** The remote call of task [i] settles and the task runs on to its next
    [await] or to its end. *)
Definition settle (i : nat) (l : Loop) : Loop :=
  match nth_error (inflight l) i with
  | None => l
  | Some t =>
      let a := client (awaiting t) (repo l) in
      let lg := log l ++ [(awaiting t, settled_ok (fst a))] in
      match start (resume t (fst a)) (state l) with
      | (s, Finished _) => mkLoop s (snd a) lg (remove_nth i (inflight l))
      | (s, Suspended c k) =>
          mkLoop s (snd a) lg (replace_nth i (mkTask (kind t) c k) (inflight l))
      end
  end.

(** Lines 223-226: [() => { syncNow().catch(...); timer = null; }] *)
Definition onTimeout (l : Loop) : Loop :=
  with_state (set_timer None) (spawn KPush (syncNow false) l).

(** Lines 205-207: [() => { if (dirty) syncNow().catch(...); }] *)
Definition onInterval (l : Loop) : Loop :=
  if dirty (state l) then spawn KPush (syncNow false) l else l.

(** Every handler registered for the signal runs, until one of them has
    exited the process; with no handler the signal terminates the
    process. *)
Definition onSignal (sig : Signal) (l : Loop) : Loop :=
  match handlers sig (state l) with
  | O => with_state process_exit l
  | S _ as n =>
      Nat.iter n (fun l' => if exited (state l') then l'
                            else spawn KShutdown shutdown l') l
  end.

Definition step (ev : Event) (l : Loop) : Loop :=
  if exited (state l) then l else
  match ev with
  | EvInit => spawn KInit (initDataSync configError) l
  | EvMarkDirty => spawn KPush markDataDirty l
  | EvSyncNow force => spawn KPush (syncNow force) l
  | EvTimeout h =>
      if existsb (Nat.eqb h) (timeouts (state l))
      then onTimeout (with_state (drop_timeout h) l)
      else l
  | EvTick =>
      match intervals (state l) with O => l | S _ => onInterval l end
  | EvSignal sig => onSignal sig l
  | EvSettle i => settle i l
  end.

Definition exec (evs : list Event) (l : Loop) : Loop :=
  fold_left (fun l ev => step ev l) evs l.

(** The loop of a freshly loaded module. *)
Definition boot (dir : bool) (db : option Buffer) (r : R) : Loop :=
  mkLoop (loaded dir db) r [] [].

(** The pushes in flight. *)
Definition pushes (l : Loop) : list Task := filter is_push (inflight l).

End EventLoop.

Arguments mkLoop {R}.
Arguments state {R}.
Arguments repo {R}.
Arguments log {R}.
Arguments inflight {R}.
Arguments spawn {R}.
Arguments with_state {R}.
Arguments settle {R}.
Arguments onTimeout {R}.
Arguments onInterval {R}.
Arguments onSignal {R}.
Arguments step configError {R}.
Arguments exec configError {R}.
Arguments boot {R}.
Arguments pushes {R}.

(** ** A scripted remote, for concrete runs *)

Module Scripted.

(** One scripted answer. *)
Inductive Reply : Type :=
| Fails (e : JsError)
| Content (d : ContentData)
| Blob (b : Body)
| Put (d : PutData)
| Sha (s : string)
| Ok.

Definition unexpected : JsError := mkError (Some 500%Z) "unexpected call".

Definition answer (c : Call) (rp : Reply) : Settled (resp c) :=
  match c return Settled (resp c) with
  | GetContent =>
      match rp with Content d => inr d | Fails e => inl e | _ => inl unexpected end
  | GetBlob _ =>
      match rp with Blob b => inr b | Fails e => inl e | _ => inl unexpected end
  | CreateOrUpdateFileContents _ =>
      match rp with Put d => inr d | Fails e => inl e | _ => inl unexpected end
  | UpdateRef _ =>
      match rp with Ok => inr tt | Fails e => inl e | _ => inl unexpected end
  | CreateBlob _ | GetRef | GetCommit _ | CreateTree _ _ | CreateCommit _ _ _ =>
      match rp with Sha s => inr s | Fails e => inl e | _ => inl unexpected end
  end.

(** The remote answers the calls it receives with the replies of the
    script, in order. *)
Definition client (c : Call) (script : list Reply) : Settled (resp c) * list Reply :=
  match script with
  | [] => (inl unexpected, [])
  | rp :: rest => (answer c rp, rest)
  end.

Definition not_found : JsError := mkError (Some 404%Z) "Not Found".

Definition sha_missing : JsError :=
  mkError (Some 422%Z)
          ("Invalid request. " ++ sha_wasnt_supplied ++ ".").


Definition configError (msg : string) : JsError := mkError None msg.

End Scripted.

(** * Vocabulary of the properties *)

Definition is_updateRef (c : Call) : bool :=
  match c with UpdateRef _ => true | _ => false end.

(** The lookup of [getRemoteSha] reports the remote object absent: the
    store says 404, or the answer carries no sha. *)
Definition lookup_absent (a : Settled ContentData) : bool :=
  match a with
  | inl e => status_is e 404
  | inr (FileData sha) => String.eqb sha ""
  | inr DirListing => false
  end.

(** The write calls, and the contents calls, of a trace. *)
Definition writes (tr : list Entry) : list Entry :=
  filter (fun e => is_write (fst e)) tr.

Definition puts (tr : list Entry) : list Entry :=
  filter (fun e => is_put (fst e)) tr.

(** The parameters of the update [syncNow] sends for [buf] under tag [sha]. *)
Definition sync_params (buf : Buffer) (sha : option string) : PutParams :=
  mkParams "Sync data/app.db" (base64 buf) sha.

(** A call that sends zero-length content. *)
Definition carries_empty (c : Call) : bool :=
  match c with
  | CreateOrUpdateFileContents p => negb (b64_truthy (p_content p))
  | CreateBlob content => negb (b64_truthy content)
  | _ => false
  end.

Definition pushes_empty (tr : list Entry) : bool :=
  existsb (fun e => carries_empty (fst e)) tr.


(** A push is confirmed when the contents call or the final reference
    update resolved. *)
Definition push_confirmed (tr : list Entry) : bool :=
  existsb (fun e => snd e && (is_put (fst e) || is_updateRef (fst e))) tr.

(** A blob answer out of which [fetchRemoteDbBuffer] gets no buffer and
    whose failure the catch of [initDataSync] (line 158) does not rethrow:
    a 404, an error without a status, or a body that is none of Buffer,
    string and base64 object. *)
Definition blob_unread (a : Settled Body) : bool :=
  match a with
  | inl e => negb (status_truthy_not e 404)
  | inr body => match blob_buffer body with Some _ => false | None => true end
  end.

(** A state update that leaves the debounce timer and the scheduled
    callbacks alone. *)
Definition keeps_timers (f : St -> St) : Prop :=
  forall s, timer (f s) = timer s /\ timeouts (f s) = timeouts s.

(** A state update that leaves [dirty] alone. *)
Definition keeps_dirty (f : St -> St) : Prop :=
  forall s, dirty (f s) = dirty s.

(** A program all of whose updates are of the kind [ok]. *)
Inductive Framed (ok : (St -> St) -> Prop) {A : Type} : Prog A -> Prop :=
| Framed_Ret (a : A) : Framed ok (Ret a)
| Framed_Throw (e : JsError) : Framed ok (Throw e)
| Framed_Read (k : St -> Prog A) : (forall s, Framed ok (k s)) -> Framed ok (Read k)
| Framed_Update (f : St -> St) (k : Prog A) :
    ok f -> Framed ok k -> Framed ok (Update f k)
| Framed_Await (c : Call) (k : Settled (resp c) -> Prog A) :
    (forall a, Framed ok (k a)) -> Framed ok (Await c k).

(** The scheduled debounce callbacks are exactly the one [timer] names. *)
Definition timers_ok (s : St) : Prop :=
  timeouts s = match timer s with Some h => [h] | None => [] end.

(** Whatever a pending task does next leaves the timer alone. *)
Definition tasks_framed {R : Type} (l : Loop R) : Prop :=
  Forall (fun t => forall a, Framed keeps_timers (resume t a)) (inflight l).

(** The loop invariant. *)
Definition Inv {R : Type} (l : Loop R) : Prop :=
  timers_ok (state l) /\ tasks_framed l.

(** ** Concrete inputs *)

Definition ABC : Buffer := ["A"; "B"; "C"]%byte.
Definition XYZ : Buffer := ["X"; "Y"; "Z"]%byte.

(** A buffer one byte over the limit. *)
Definition oversized : Buffer := repeat "000"%byte (N.to_nat (SIZE_WARN_LIMIT + 1)).


(** The remote object exists under tag s1 but its blob cannot be read; the
    store wants the tag for a write over it. *)
Definition overwrite_script : list Scripted.Reply :=
  [Scripted.Content (FileData "s1"); Scripted.Blob BodyOther;
   Scripted.Fails Scripted.sha_missing; Scripted.Content (FileData "s1");
   Scripted.Put (mkPutData "s2")].


Definition seed_params (sha : option string) : PutParams :=
  mkParams "Initialize data/app.db from local" (base64 ABC) sha.

(** One [markDataDirty], then its timer fires: a push is waiting for the
    remote. *)
Definition flushing : Loop (list Scripted.Reply) :=
  exec Scripted.configError Scripted.client [EvMarkDirty; EvTimeout 0]
       (boot true (Some ABC) []).

(** Startup seeds the remote from ABC; then a change is signalled, the
    debounce timer fires and, before the remote has answered, the periodic
    tick fires too. *)
Definition overlapping : Loop (list Scripted.Reply) :=
  exec Scripted.configError Scripted.client
       [EvInit; EvSettle 0; EvSettle 0; EvMarkDirty; EvTimeout 0; EvTick]
       (boot true (Some ABC)
             [Scripted.Fails Scripted.not_found; Scripted.Put (mkPutData "s1")]).

(** ** Vocabulary of the further properties *)

(** The reference updates of a trace. *)
Definition ref_updates (tr : list Entry) : list Entry :=
  filter (fun e => is_updateRef (fst e)) tr.

(** Two states that differ at most in [lastKnownSha] and [dirty]: the
    file system, the timer and the runtime's registrations are the same. *)
Definition same_host (s s' : St) : Prop :=
  localDir s' = localDir s /\ localDb s' = localDb s
  /\ timer s' = timer s /\ timeouts s' = timeouts s
  /\ nextHandle s' = nextHandle s /\ intervals s' = intervals s
  /\ sigintHandlers s' = sigintHandlers s /\ sigtermHandlers s' = sigtermHandlers s
  /\ exited s' = exited s.

(** A state update that touches nothing but [lastKnownSha] and [dirty]. *)
Definition keeps_host (f : St -> St) : Prop := forall s, same_host s (f s).

(** A state update that leaves [exited] alone. *)
Definition keeps_running (f : St -> St) : Prop :=
  forall s, exited (f s) = exited s.

(** The seed parameters of [initDataSync] for a local file [buf]. *)
Definition init_params (buf : Buffer) : PutParams :=
  mkParams "Initialize data/app.db from local" (base64 buf) None.


(** The message [initDataSync] hands to [configError]. *)
Definition seed_failure_message : string :=
  "Failed to create remote data/app.db: repository/branch not found or token lacking permission.".

(** Scripts of the further concrete runs. *)
Definition blob_commit_script : list Scripted.Reply :=
  [Scripted.Sha "b1"; Scripted.Sha "c0"; Scripted.Sha "t0"; Scripted.Sha "t1";
   Scripted.Sha "c1"; Scripted.Ok; Scripted.Content (FileData "s9")].

Definition rejected_retry_script : list Scripted.Reply :=
  [Scripted.Content (FileData "s1"); Scripted.Fails Scripted.sha_missing;
   Scripted.Fails Scripted.not_found; Scripted.Content (FileData "s3");
   Scripted.Fails Scripted.unexpected].

Definition one_push_script : list Scripted.Reply :=
  [Scripted.Content (FileData "s1"); Scripted.Put (mkPutData "s2")].

(** * Properties *)

Lemma or_null_some (s : string) : s <> "" -> or_null s = Some s.
Proof.
  intros H. unfold or_null. destruct (String.eqb_spec s ""); congruence.
Qed.

Lemma or_null_truthy (s : string) (t : string) : or_null s = Some t -> t = s /\ s <> "".
Proof.
  unfold or_null. destruct (String.eqb_spec s ""); intros E; inversion E; subst; auto.
Qed.

Lemma size_zero (b : Buffer) : size b = 0%N -> b = [].
Proof.
  destruct b; auto. unfold size. simpl. discriminate.
Qed.

(** Case analysis on the next answer of the remote, and on the tests the
    module makes on it. *)
Ltac next_answer client :=
  match goal with
  | |- context [client ?c ?r] =>
      let e := fresh "e" in
      let v := fresh "v" in
      let r' := fresh "r" in
      let H := fresh "Hc" in
      destruct (client c r) as [[e | v] r'] eqn:H
  end.

Ltac next_test :=
  match goal with
  | |- context [N.eqb (size ?b) 0] => destruct (N.eqb_spec (size b) 0)
  | |- context [N.leb (size ?b) SIZE_WARN_LIMIT] =>
      destruct (N.leb_spec (size b) SIZE_WARN_LIMIT)
  | |- context [negb (dirty ?s) && negb ?f] =>
      destruct (negb (dirty s) && negb f) eqn:?
  | |- context [if localDir ?s then _ else _] => destruct (localDir s) eqn:?
  | |- context [match localDb ?s with Some _ => _ | None => _ end] =>
      destruct (localDb s) as [? |] eqn:?
  | |- context [match ?l with [] => _ | _ :: _ => _ end] => is_var l; destruct l
  | |- context [status_truthy_not ?e ?n] => destruct (status_truthy_not e n) eqn:?
  | |- context [blob_buffer ?b] => destruct (blob_buffer b) eqn:?
  | |- context [status_is ?e ?n] => destruct (status_is e n) eqn:?
  | |- context [is_sha_missing ?e] => destruct (is_sha_missing e) eqn:?
  | |- context [or_null ?s] => destruct (or_null s) eqn:?
  | |- context [match ?v with DirListing => _ | FileData _ => _ end] => destruct v
  end.

Ltac crunch client :=
  repeat (simpl; first [ next_test | next_answer client ]).

(** Keeps a single copy of the run in the goal while its cases are split. *)
Ltac focus_run :=
  match goal with
  | |- context [run_from ?cl ?tr ?p ?s ?r] =>
      pattern (run_from cl tr p s r);
      match goal with |- ?P _ => let Q := fresh "Q" in set (Q := P) end
  end.

(** Splits a lookup that reports the remote absent into its two cases:
    a 404, or an answer without a sha. *)
Ltac absent_cases Habs Hc :=
  match type of Habs with
  | lookup_absent (fst (?cl GetContent ?r)) = true =>
      let e := fresh "e" in
      let sha := fresh "sha" in
      let r1 := fresh "r1" in
      destruct (cl GetContent r) as [[e | [| sha]] r1] eqn:Hc;
      simpl in Habs; try discriminate; simpl in *
  end.

Ltac init_lookup s Habs Hc :=
  simpl; destruct (localDir s); simpl; rewrite Hc; simpl;
  unfold or_null; rewrite Habs; simpl.

(** Puts the answers already split back into the goal. *)
Ltac recall_answers :=
  repeat match goal with
         | H : ?cl ?c ?r = (_, _) |- context [?cl ?c ?r] => rewrite H
         end.

(** ** Frames: what a program leaves alone *)

Lemma Framed_bind (ok : (St -> St) -> Prop) (A B : Type) (p : Prog A)
    (f : A -> Prog B) :
  Framed ok p -> (forall a, Framed ok (f a)) -> Framed ok (bind p f).
Proof.
  intros Hp Hf. induction Hp; simpl; auto; constructor; auto.
Qed.

Lemma Framed_catch (ok : (St -> St) -> Prop) (A : Type) (p : Prog A)
    (h : JsError -> Prog A) :
  Framed ok p -> (forall e, Framed ok (h e)) -> Framed ok (try_catch p h).
Proof.
  intros Hp Hh. induction Hp; simpl; auto; constructor; auto.
Qed.

Create HintDb framed.

Ltac framed :=
  repeat (intros;
          match goal with
          | |- Framed _ _ => solve [auto with framed]
          | |- Framed _ (bind _ _) => apply Framed_bind
          | |- Framed _ (try_catch _ _) => apply Framed_catch
          | |- Framed _ (match ?x with _ => _ end) => destruct x
          | |- Framed _ _ => constructor
          | |- keeps_timers _ => intros ?; split; reflexivity
          | |- keeps_dirty _ => intros ?; reflexivity
          end).

Lemma getRemoteSha_framed (ok : (St -> St) -> Prop) : Framed ok getRemoteSha.
Proof.
  unfold getRemoteSha, getContent, await. framed.
Qed.
#[local] Hint Resolve getRemoteSha_framed : framed.

Lemma putFileContents_framed (ok : (St -> St) -> Prop) (content : Base64)
    (msg : string) (sha : option string) :
  Framed ok (putFileContents content msg sha).
Proof.
  unfold putFileContents, createOrUpdateFileContents, await. cbv zeta. framed.
Qed.

Lemma commitRawBlob_framed (ok : (St -> St) -> Prop) (buf : Buffer) (msg : string) :
  Framed ok (commitRawBlob buf msg).
Proof.
  unfold commitRawBlob, createBlob, getRef, getCommit, createTree, createCommit,
    updateRef, await.
  framed.
Qed.
#[local] Hint Resolve putFileContents_framed commitRawBlob_framed : framed.

Lemma syncNow_framed (force : bool) : Framed keeps_timers (syncNow force).
Proof.
  unfold syncNow, get, modify. cbv zeta. framed.
Qed.
#[local] Hint Resolve syncNow_framed : framed.

Lemma shutdown_framed : Framed keeps_timers shutdown.
Proof.
  unfold shutdown, get, modify. framed.
Qed.

Lemma initDataSync_framed (configError : string -> JsError) :
  Framed keeps_timers (initDataSync configError).
Proof.
  unfold initDataSync, fetchRemoteDbBuffer, getBlob, await, get, modify. framed.
Qed.

Lemma initDataSync_keeps_dirty (configError : string -> JsError) :
  Framed keeps_dirty (initDataSync configError).
Proof.
  unfold initDataSync, fetchRemoteDbBuffer, getBlob, await, get, modify. framed.
Qed.

(** A framed call leaves the timer alone up to its first [await], and what
    it does afterwards is framed too. *)
Lemma start_framed (A : Type) (p : Prog A) :
  Framed keeps_timers p ->
  forall s,
    timer (fst (start p s)) = timer s
    /\ timeouts (fst (start p s)) = timeouts s
    /\ match snd (start p s) with
       | Suspended c k => forall a, Framed keeps_timers (k a)
       | Finished _ => True
       end.
Proof.
  induction 1 as [a | e | k Hk IH | f k Hf Hk IH | c k Hk IH]; intros s; simpl; auto.
  destruct (IH (f s)) as (Ht & Hq & Hr). destruct (Hf s) as [Hf1 Hf2].
  rewrite Ht, Hq. auto.
Qed.

(** ** One call, run to completion *)

Section Sequential.

Variable configError : string -> JsError.
Variable R : Type.
Variable client : forall c : Call, R -> Settled (resp c) * R.

Local Abbreviation run := (run client).

(** The trace only grows: a run keeps the calls made so far. *)
Lemma run_from_extends (A : Type) (p : Prog A) :
  forall tr s r, exists rest, trace (run_from client tr p s r) = tr ++ rest.
Proof.
  induction p as [a | e | k IH | f k IH | c k IH]; intros tr s r; simpl.
  - exists []. now rewrite app_nil_r.
  - exists []. now rewrite app_nil_r.
  - apply IH.
  - apply IH.
  - destruct (client c r) as [x r'].
    destruct (IH x (tr ++ [(c, settled_ok x)]) s r') as [rest E].
    exists ((c, settled_ok x) :: rest). rewrite E, <- app_assoc. reflexivity.
Qed.

(** A run of a program whose updates keep [dirty] ends with the [dirty] it
    started with. *)
Lemma run_keeps_dirty (A : Type) (p : Prog A) :
  Framed keeps_dirty p ->
  forall tr s r, dirty (final (run_from client tr p s r)) = dirty s.
Proof.
  induction 1 as [a | e | k Hk IH | f k Hf Hk IH | c k Hk IH]; intros tr s r;
    simpl; auto.
  - now rewrite IH.
  - destruct (client c r) as [x r']. apply IH.
Qed.

Ltac keep_prefix :=
  match goal with
  | |- context [run_from _ ?tr ?p ?s ?r] =>
      let rest := fresh "rest" in
      let E := fresh "E" in
      destruct (run_from_extends _ p tr s r) as [rest E]; rewrite E
  end.


(** X21. The pull of [initDataSync] (lines 152-165).  When the path lookup
    answers with a file carrying the tag [sha] and the blob request
    answers with content [buf], [initDataSync] returns normally, the local
    file holds [buf], [lastKnownSha] is [sha], and the only remote calls
    made are the two reads, so nothing is written to the remote. *)
Theorem remote_wins_on_init (s : St) (r r1 r2 : R) (sha : string) (body : Body)
    (buf : Buffer) :
  client GetContent r = (inr (FileData sha), r1) ->
  sha <> "" ->
  client (GetBlob sha) r1 = (inr body, r2) ->
  blob_buffer body = Some buf ->
  result (run (initDataSync configError) s r) = inr tt
  /\ localDb (final (run (initDataSync configError) s r)) = Some buf
  /\ lastKnownSha (final (run (initDataSync configError) s r)) = Some sha
  /\ trace (run (initDataSync configError) s r) = [(GetContent, true); (GetBlob sha, true)]
  /\ existsb (fun e => is_write (fst e)) (trace (run (initDataSync configError) s r)) = false.
Proof.
  intros Hc Hsha Hb Hbuf.
  unfold initDataSync, fetchRemoteDbBuffer, getRemoteSha, getContent, getBlob.
  unfold run. simpl. destruct (localDir s); simpl; rewrite Hc; simpl;
    rewrite (or_null_some _ Hsha); simpl; rewrite Hb; simpl;
    rewrite Hbuf; simpl; auto.
Qed.

(** C1.  The failing input of the claim.  The lookup finds the remote
    object (tag [sha]), but the blob request is answered with a 404, with
    an error that has no status, or with a body that cannot be read.  The
    catch of line 158 absorbs the failure, [initDataSync] goes on as if the
    remote were absent and seeds from the local file [buf]: the write
    without a tag is rejected for want of a sha, [putFileContents] looks
    the tag up and writes again with it.  The existing remote object is
    overwritten with the local content, the local file is not replaced, and
    [initDataSync] returns normally. *)
Theorem init_overwrites_existing_remote (s : St) (r r1 r2 r3 r4 r5 : R)
    (sha sha' : string) (a : Settled Body) (buf : Buffer) (e : JsError)
    (data : PutData) :
  client GetContent r = (inr (FileData sha), r1) ->
  sha <> "" ->
  client (GetBlob sha) r1 = (a, r2) ->
  blob_unread a = true ->
  localDb s = Some buf ->
  buf <> [] ->
  (size buf <= SIZE_WARN_LIMIT)%N ->
  client (CreateOrUpdateFileContents (init_params buf)) r2 = (inl e, r3) ->
  is_sha_missing e = true ->
  client GetContent r3 = (inr (FileData sha'), r4) ->
  sha' <> "" ->
  client (CreateOrUpdateFileContents
            (mkParams "Initialize data/app.db from local" (base64 buf) (Some sha')))
         r4 = (inr data, r5) ->
  result (run (initDataSync configError) s r) = inr tt
  /\ trace (run (initDataSync configError) s r)
     = [(GetContent, true); (GetBlob sha, settled_ok a);
        (CreateOrUpdateFileContents (init_params buf), false);
        (GetContent, true);
        (CreateOrUpdateFileContents
           (mkParams "Initialize data/app.db from local" (base64 buf) (Some sha')),
         true)]
  /\ store (run (initDataSync configError) s r) = r5
  /\ localDb (final (run (initDataSync configError) s r)) = Some buf
  /\ lastKnownSha (final (run (initDataSync configError) s r))
     = or_null (content_sha data).
Proof.
  intros Hc Hsha Hb Ha Hdb Hne Hsz Hu He Hc' Hsha' Hu'.
  apply N.leb_le in Hsz. unfold init_params in *.
  destruct buf as [| b buf]; [contradiction |].
  unfold run, initDataSync, fetchRemoteDbBuffer, getRemoteSha, getContent, getBlob,
    putFileContents, createOrUpdateFileContents.
  simpl. destruct (localDir s); simpl; rewrite Hc; simpl;
    rewrite (or_null_some _ Hsha); simpl; rewrite Hb;
    (destruct a as [e0 | body]; simpl in Ha |- *;
       [ destruct (status_truthy_not e0 404); [discriminate |]
       | destruct (blob_buffer body); [discriminate |] ]);
    simpl; rewrite Hdb; simpl; rewrite Hsz; simpl; rewrite Hu; simpl; rewrite He;
    simpl; rewrite Hc'; simpl; rewrite (or_null_some _ Hsha'); simpl; rewrite Hu';
    simpl; auto.
Qed.

(** C3. Empty-buffer push rule.  With an empty local file, when the lookup
    reports the remote object absent, [syncNow] (forced or not) makes no
    further remote call, so nothing is written and the remote stays as the
    lookup left it, and it returns normally; when the lookup finds the
    object with tag [sha], the empty buffer is sent as an ordinary
    conditional update carrying that tag, and the push completes when the
    update resolves. *)
Theorem empty_buffer_push_rule (s : St) (r r1 : R) (force : bool)
    (a : Settled ContentData) :
  localDb s = Some [] ->
  dirty s = true \/ force = true ->
  client GetContent r = (a, r1) ->
  (lookup_absent a = true ->
     result (run (syncNow force) s r) = inr tt
     /\ trace (run (syncNow force) s r) = [(GetContent, settled_ok a)]
     /\ store (run (syncNow force) s r) = r1
     /\ localDb (final (run (syncNow force) s r)) = Some []
     /\ lastKnownSha (final (run (syncNow force) s r)) = lastKnownSha s
     /\ dirty (final (run (syncNow force) s r)) = false)
  /\ (forall sha, a = inr (FileData sha) -> sha <> "" ->
      let update :=
        CreateOrUpdateFileContents (mkParams "Sync data/app.db" (base64 []) (Some sha)) in
      nth_error (trace (run (syncNow force) s r)) 1
        = Some (update, settled_ok (fst (client update r1)))
      /\ forall data r2, client update r1 = (inr data, r2) ->
           result (run (syncNow force) s r) = inr tt
           /\ trace (run (syncNow force) s r) = [(GetContent, true); (update, true)]
           /\ lastKnownSha (final (run (syncNow force) s r)) = or_null (content_sha data)
           /\ dirty (final (run (syncNow force) s r)) = false).
Proof.
  intros Hdb Hgo Hc.
  assert (Hguard : negb (dirty s) && negb force = false)
    by (destruct Hgo as [-> | ->]; [reflexivity | apply andb_false_r]).
  unfold run, syncNow, getRemoteSha, putFileContents, getContent.
  simpl. rewrite Hguard. simpl. rewrite Hdb. simpl. rewrite Hc. split.
  - intros Habs. destruct a as [e | [| sha]]; simpl in Habs; try discriminate; simpl.
    + rewrite Habs. unfold size. simpl. repeat split; auto.
    + unfold or_null. rewrite Habs. unfold size. simpl. repeat split; auto.
  - intros sha -> Hsha. simpl. rewrite (or_null_some _ Hsha). simpl.
    rewrite (or_null_some _ Hsha).
    destruct (client _ r1) as [[e | data] r2] eqn:Hu; simpl.
    + split; [| intros ? ? [=]]. keep_prefix. reflexivity.
    + split; [reflexivity |]. intros d r2' [= <- <-]. auto.
Qed.


(** C7.  What [initDataSync] does with a failed remote read, when there
    is no local file.  A 404 from the lookup is not an error: the
    remote-absent branch runs.  An error with a status other than 404
    propagates.  But an error with no status does not propagate (the
    failing input of the claim): the lookup that resolves with a directory
    listing makes [getRemoteSha] throw its own [Error], and a blob answer
    that cannot be read makes [fetchRemoteDbBuffer] throw one; in both
    cases [initDataSync] goes on as if the remote were absent, creates an
    empty local file and returns normally. *)
Theorem init_absorbs_failure_without_status (s : St) (r r1 : R)
    (a : Settled ContentData) :
  client GetContent r = (a, r1) ->
  localDb s = None ->
  (forall e, a = inl e -> status_is e 404 = true ->
     result (run (initDataSync configError) s r) = inr tt
     /\ trace (run (initDataSync configError) s r) = [(GetContent, false)]
     /\ localDb (final (run (initDataSync configError) s r)) = Some [])
  /\ (forall e, a = inl e -> status_truthy_not e 404 = true ->
      result (run (initDataSync configError) s r) = inl e)
  /\ (a = inr DirListing ->
      result (run getRemoteSha s r)
        = inl (Error "Expected file, found directory at data/app.db")
      /\ result (run (initDataSync configError) s r) = inr tt
      /\ trace (run (initDataSync configError) s r) = [(GetContent, true)]
      /\ localDb (final (run (initDataSync configError) s r)) = Some [])
  /\ (forall sha r2, a = inr (FileData sha) -> sha <> "" ->
      client (GetBlob sha) r1 = (inr BodyOther, r2) ->
      result (run fetchRemoteDbBuffer s r)
        = inl (Error "Unable to fetch DB blob content")
      /\ result (run (initDataSync configError) s r) = inr tt
      /\ localDb (final (run (initDataSync configError) s r)) = Some []).
Proof.
  intros Hc Hdb.
  assert (Hstatus : forall e, status_is e 404 = true -> status_truthy_not e 404 = false).
  { intros e H. unfold status_truthy_not, status_is in *.
    destruct (status e); [now rewrite H, andb_false_r | reflexivity]. }
  unfold run, initDataSync, fetchRemoteDbBuffer, getRemoteSha, getContent, getBlob.
  simpl. split; [| split; [| split]].
  - intros e -> H404.
    destruct (localDir s); simpl; rewrite Hc; simpl; rewrite H404; simpl;
      rewrite Hdb; simpl; auto.
  - intros e -> Hst.
    assert (H404 : status_is e 404 = false).
    { destruct (status_is e 404) eqn:H; auto. rewrite (Hstatus e H) in Hst.
      discriminate. }
    destruct (localDir s); simpl; rewrite Hc; simpl; rewrite H404; simpl;
      rewrite Hst; reflexivity.
  - intros ->. rewrite Hc. simpl. split; [reflexivity |].
    destruct (localDir s); simpl; rewrite Hc; simpl; rewrite Hdb; simpl; auto.
  - intros sha r2 -> Hsha Hb. rewrite Hc. simpl.
    rewrite (or_null_some _ Hsha). simpl. rewrite Hb. simpl.
    split; [reflexivity |].
    destruct (localDir s); simpl; rewrite Hc; simpl;
      rewrite (or_null_some _ Hsha); simpl; rewrite Hb; simpl; rewrite Hdb;
      simpl; auto.
Qed.

(** C10. The contents helper retries once by itself.  Called without a
    tag, rejected with the 422 sha-missing error while a fresh lookup
    returns the tag [sha], [putFileContents] re-issues the write with that
    tag, and what the caller gets is the outcome of this second write.  No
    call of [putFileContents] issues more than two writes.  The seed path
    of [initDataSync] (remote absent at the first lookup, local file not
    empty and within the size limit) calls the helper without a tag and so
    gets the same retry. *)
Theorem putFileContents_retries_once (s : St) (r r1 r2 : R) (content : Base64)
    (msg sha : string) (e : JsError) :
  client (CreateOrUpdateFileContents (mkParams msg content None)) r = (inl e, r1) ->
  is_sha_missing e = true ->
  client GetContent r1 = (inr (FileData sha), r2) ->
  sha <> "" ->
  let retry := CreateOrUpdateFileContents (mkParams msg content (Some sha)) in
  (trace (run (putFileContents content msg None) s r)
     = [(CreateOrUpdateFileContents (mkParams msg content None), false);
        (GetContent, true);
        (retry, settled_ok (fst (client retry r2)))]
   /\ result (run (putFileContents content msg None) s r) = fst (client retry r2))
  /\ (forall s' r' content' msg' sha',
        length (puts (trace (run (putFileContents content' msg' sha') s' r'))) <= 2)
  /\ (forall s0 r0 e0 b buf,
        client GetContent r0 = (inl e0, r) ->
        status_is e0 404 = true ->
        localDb s0 = Some (b :: buf) ->
        (size (b :: buf) <= SIZE_WARN_LIMIT)%N ->
        content = base64 (b :: buf) ->
        msg = "Initialize data/app.db from local" ->
        trace (run (initDataSync configError) s0 r0)
          = [(GetContent, false);
             (CreateOrUpdateFileContents (mkParams msg content None), false);
             (GetContent, true);
             (retry, settled_ok (fst (client retry r2)))]).
Proof.
  intros Hu He Hc Hsha retry. subst retry. split; [| split].
  - unfold run, putFileContents, getRemoteSha, getContent. simpl.
    rewrite Hu. simpl. rewrite He. simpl. rewrite Hc. simpl.
    rewrite (or_null_some _ Hsha). simpl.
    destruct (client _ r2) as [[e' | d] r3]; simpl; auto.
  - intros s' r' content' msg' sha'.
    unfold run, putFileContents, getRemoteSha, getContent. focus_run.
    crunch client; subst Q; simpl; lia.
  - intros s0 r0 e0 b buf Hc0 H404 Hdb Hsz -> ->.
    apply N.leb_le in Hsz.
    unfold run, initDataSync, fetchRemoteDbBuffer, putFileContents, getRemoteSha,
      getContent.
    simpl. destruct (localDir s0); simpl; rewrite Hc0; simpl;
      (replace (status_truthy_not e0 404) with false
        by (unfold status_truthy_not, status_is in *; destruct (status e0);
            [rewrite H404, andb_false_r |]; reflexivity));
      rewrite H404; simpl; rewrite Hdb; simpl; rewrite Hsz; simpl;
      rewrite Hu; simpl; rewrite He; simpl; rewrite Hc; simpl;
      rewrite (or_null_some _ Hsha); simpl;
      destruct (client _ r2) as [[e' | d] r3]; simpl; auto;
      destruct (status_is e' 404); reflexivity.
Qed.

(** C2 (amended).  [initDataSync] never sends zero-length content.
    [syncNow] sends zero-length content only when the local file is empty
    and its lookup found the remote object, with a tag; when the lookup
    reports the object absent it sends none.  With an empty local file and
    the object found under the tag [sha], [syncNow] does send the
    zero-length content: its first write is the update carrying [sha]. *)
Theorem empty_content_only_updates (s : St) (r : R) (force : bool) :
  pushes_empty (trace (run (initDataSync configError) s r)) = false
  /\ (pushes_empty (trace (run (syncNow force) s r)) = true ->
      localDb s = Some []
      /\ exists sha r1, client GetContent r = (inr (FileData sha), r1) /\ sha <> "")
  /\ (lookup_absent (fst (client GetContent r)) = true ->
      pushes_empty (trace (run (syncNow force) s r)) = false)
  /\ (forall sha r1,
        localDb s = Some [] ->
        dirty s = true \/ force = true ->
        client GetContent r = (inr (FileData sha), r1) ->
        sha <> "" ->
        nth_error (trace (run (syncNow force) s r)) 1
          = Some (CreateOrUpdateFileContents (sync_params [] (Some sha)),
                  settled_ok (fst (client (CreateOrUpdateFileContents
                                             (sync_params [] (Some sha))) r1)))
        /\ pushes_empty (trace (run (syncNow force) s r)) = true).
Proof.
  assert (Honly : pushes_empty (trace (run (syncNow force) s r)) = true ->
                  localDb s = Some []
                  /\ exists sha r1,
                       client GetContent r = (inr (FileData sha), r1) /\ sha <> "").
  { unfold run. focus_run.
    unfold syncNow, putFileContents, commitRawBlob, getRemoteSha.
    simpl. destruct (negb (dirty s) && negb force); [subst Q; simpl; discriminate |].
    simpl. destruct (localDb s) as [[| b buf] |] eqn:Hdb;
      [| | subst Q; simpl; discriminate].
    - simpl. destruct (client GetContent r) as [[e | [| sha]] r1] eqn:Hc; simpl.
      + destruct (status_is e 404); simpl; subst Q; simpl; discriminate.
      + subst Q; simpl; discriminate.
      + destruct (or_null sha) eqn:Hsha.
        * subst Q. intros _. apply or_null_truthy in Hsha.
          split; [reflexivity |]. exists sha, r1. tauto.
        * simpl. subst Q. simpl. discriminate.
    - crunch client; subst Q; simpl; discriminate. }
  split; [| split; [exact Honly | split]].
  - unfold run. focus_run.
    unfold initDataSync, fetchRemoteDbBuffer, putFileContents, commitRawBlob,
      getRemoteSha.
    (crunch client; subst Q; reflexivity).
  - intros Habs.
    destruct (pushes_empty (trace (run (syncNow force) s r))); [| reflexivity].
    destruct (Honly eq_refl) as (_ & sha & r1 & Hc & Hsha).
    rewrite Hc in Habs. simpl in Habs. apply String.eqb_eq in Habs. contradiction.
  - intros sha r1 Hdb Hgo Hc Hsha.
    assert (Hguard : negb (dirty s) && negb force = false)
      by (destruct Hgo as [-> | ->]; [reflexivity | apply andb_false_r]).
    unfold sync_params.
    unfold run, syncNow, getRemoteSha, putFileContents, getContent.
    simpl. rewrite Hguard. simpl. rewrite Hdb. simpl. rewrite Hc. simpl.
    rewrite (or_null_some _ Hsha). simpl. rewrite (or_null_some _ Hsha).
    destruct (client _ r1) as [x r2] eqn:Hu. simpl.
    keep_prefix. unfold pushes_empty. rewrite existsb_app. split; reflexivity.
Qed.


(** With the remote absent and a local file that is not empty, [syncNow]
    creates the remote object with the contents call, whatever the size of
    the file. *)
Lemma syncNow_creates_with_contents_call (s : St) (r r1 r2 : R) (force : bool)
    (buf : Buffer) (e : JsError) (data : PutData) :
  localDb s = Some buf ->
  size buf <> 0%N ->
  dirty s = true \/ force = true ->
  client GetContent r = (inl e, r1) ->
  status_is e 404 = true ->
  client (CreateOrUpdateFileContents
            (mkParams "Create data/app.db from local" (base64 buf) None)) r1
    = (inr data, r2) ->
  trace (run (syncNow force) s r)
    = [(GetContent, false);
       (CreateOrUpdateFileContents
          (mkParams "Create data/app.db from local" (base64 buf) None), true)].
Proof.
  intros Hdb Hsz Hgo Hc H404 Hu.
  assert (Hguard : negb (dirty s) && negb force = false)
    by (destruct Hgo as [-> | ->]; [reflexivity | apply andb_false_r]).
  unfold run, syncNow, getRemoteSha, putFileContents, getContent.
  simpl. rewrite Hguard. simpl. rewrite Hdb. simpl. rewrite Hc. simpl.
  rewrite H404. simpl. destruct (N.eqb_spec (size buf) 0); [contradiction |].
  simpl. rewrite Hu. reflexivity.
Qed.

(** C6 (amended).  [markDataDirty] sets [dirty]; [initDataSync] leaves it
    as it is; [syncNow] turns it from true to false only after a confirmed
    push, or when it refuses to push an empty file to a remote that its
    lookup reported absent (that lookup is then the only call made, so
    nothing is written). *)
Theorem dirty_cleared_only_on_push_or_refusal (s : St) (r : R) (force : bool) :
  (dirty s = true ->
   dirty (final (run (syncNow force) s r)) = false ->
   push_confirmed (trace (run (syncNow force) s r)) = true
   \/ (localDb s = Some []
       /\ lookup_absent (fst (client GetContent r)) = true
       /\ trace (run (syncNow force) s r)
          = [(GetContent, settled_ok (fst (client GetContent r)))]))
  /\ dirty (final (run (initDataSync configError) s r)) = dirty s
  /\ dirty (final (run markDataDirty s r)) = true.
Proof.
  split; [| split].
  - intros Hd. unfold run. focus_run.
    unfold syncNow, getRemoteSha, putFileContents, commitRawBlob.
    simpl. rewrite Hd. simpl.
    destruct (localDb s) as [buf |]; [| subst Q; simpl; congruence].
    crunch client; subst Q; simpl; try congruence; auto.
    all: right; recall_answers; simpl; split; [f_equal; now apply size_zero |].
    all: split; [| reflexivity].
    all: first [assumption
               | match goal with
                 | H : or_null ?x = None |- _ =>
                     unfold or_null in H; destruct (String.eqb x ""); congruence
                 end].
  - apply run_keeps_dirty. apply initDataSync_keeps_dirty.
  - unfold run. simpl. destruct (timer s); reflexivity.
Qed.

End Sequential.

(** ** Concrete runs *)

(** Remote holds XYZ under tag s1, local holds ABC: after [initDataSync]
    the local file holds XYZ and only the two reads were made. *)
Lemma remote_wins_on_init_witness :
  result (run Scripted.client (initDataSync Scripted.configError)
            (loaded true (Some ABC))
            [Scripted.Content (FileData "s1"); Scripted.Blob (BodyBuffer XYZ)])
    = inr tt
  /\ localDb (final (run Scripted.client (initDataSync Scripted.configError)
                       (loaded true (Some ABC))
                       [Scripted.Content (FileData "s1"); Scripted.Blob (BodyBuffer XYZ)]))
     = Some XYZ
  /\ lastKnownSha (final (run Scripted.client (initDataSync Scripted.configError)
                            (loaded true (Some ABC))
                            [Scripted.Content (FileData "s1"); Scripted.Blob (BodyBuffer XYZ)]))
     = Some "s1"
  /\ trace (run Scripted.client (initDataSync Scripted.configError)
              (loaded true (Some ABC))
              [Scripted.Content (FileData "s1"); Scripted.Blob (BodyBuffer XYZ)])
     = [(GetContent, true); (GetBlob "s1", true)]
  /\ existsb (fun e => is_write (fst e))
       (trace (run Scripted.client (initDataSync Scripted.configError)
                 (loaded true (Some ABC))
                 [Scripted.Content (FileData "s1"); Scripted.Blob (BodyBuffer XYZ)]))
     = false.
Proof.
  eapply (remote_wins_on_init Scripted.configError _ Scripted.client
            (loaded true (Some ABC)) _ _ _ "s1" (BodyBuffer XYZ) XYZ);
    [reflexivity | discriminate | reflexivity | reflexivity].
Defined.

(** The remote object exists under tag s1, its blob cannot be read, and the
    local file holds ABC: [initDataSync] writes ABC over the remote object
    and keeps the local file. *)
Lemma init_overwrites_existing_remote_witness :
  result (run Scripted.client (initDataSync Scripted.configError)
            (loaded true (Some ABC)) overwrite_script) = inr tt
  /\ trace (run Scripted.client (initDataSync Scripted.configError)
              (loaded true (Some ABC)) overwrite_script)
     = [(GetContent, true); (GetBlob "s1", true);
        (CreateOrUpdateFileContents (seed_params None), false);
        (GetContent, true);
        (CreateOrUpdateFileContents (seed_params (Some "s1")), true)]
  /\ store (run Scripted.client (initDataSync Scripted.configError)
              (loaded true (Some ABC)) overwrite_script) = []
  /\ localDb (final (run Scripted.client (initDataSync Scripted.configError)
                       (loaded true (Some ABC)) overwrite_script)) = Some ABC
  /\ lastKnownSha (final (run Scripted.client (initDataSync Scripted.configError)
                            (loaded true (Some ABC)) overwrite_script))
     = Some "s2".
Proof.
  eapply (init_overwrites_existing_remote Scripted.configError _ Scripted.client
            (loaded true (Some ABC)) overwrite_script _ _ _ _ _ "s1" "s1"
            (inr BodyOther) ABC Scripted.sha_missing (mkPutData "s2"));
    first [reflexivity | discriminate].
Defined.

(** C2 (counterexample).  The lookup finds the remote object (tag s1), the
    local file is empty and dirty: [syncNow] sends the zero-length content
    as an update of the existing object, and the update resolves. *)
Lemma empty_update_replaces_existing_remote :
  trace (run Scripted.client (syncNow false)
           (set_dirty true (loaded true (Some [])))
           [Scripted.Content (FileData "s1"); Scripted.Put (mkPutData "s2")])
    = [(GetContent, true);
       (CreateOrUpdateFileContents (sync_params [] (Some "s1")), true)]
  /\ pushes_empty
       (trace (run Scripted.client (syncNow false)
                 (set_dirty true (loaded true (Some [])))
                 [Scripted.Content (FileData "s1"); Scripted.Put (mkPutData "s2")]))
     = true.
Proof.
  split; reflexivity.
Qed.

(** Forced flush of an empty local file against an absent remote. *)
Lemma empty_buffer_push_rule_witness :
  result (run Scripted.client (syncNow true) (loaded true (Some []))
            [Scripted.Fails Scripted.not_found]) = inr tt
  /\ trace (run Scripted.client (syncNow true) (loaded true (Some []))
              [Scripted.Fails Scripted.not_found]) = [(GetContent, false)]
  /\ store (run Scripted.client (syncNow true) (loaded true (Some []))
              [Scripted.Fails Scripted.not_found]) = []
  /\ localDb (final (run Scripted.client (syncNow true) (loaded true (Some []))
                       [Scripted.Fails Scripted.not_found])) = Some []
  /\ lastKnownSha (final (run Scripted.client (syncNow true) (loaded true (Some []))
                            [Scripted.Fails Scripted.not_found])) = None
  /\ dirty (final (run Scripted.client (syncNow true) (loaded true (Some []))
                     [Scripted.Fails Scripted.not_found])) = false.
Proof.
  apply (proj1 (empty_buffer_push_rule (list Scripted.Reply) Scripted.client
                  (loaded true (Some [])) [Scripted.Fails Scripted.not_found] []
                  true (inl Scripted.not_found) eq_refl (or_intror eq_refl) eq_refl)).
  reflexivity.
Defined.

Lemma oversized_size : size oversized = (SIZE_WARN_LIMIT + 1)%N.
Proof.
  unfold size, oversized. rewrite repeat_length. apply N2Nat.id.
Qed.

#[local] Opaque oversized.

(** A buffer above the limit, remote absent: [syncNow] sends it with the
    contents call, not through the blob/tree/commit path to which the
    module's header and the seed of [initDataSync] send large files. *)
Lemma oversized_push_uses_contents_call :
  (SIZE_WARN_LIMIT < size oversized)%N
  /\ trace (run Scripted.client (syncNow true) (loaded true (Some oversized))
              [Scripted.Fails Scripted.not_found; Scripted.Put (mkPutData "s1")])
     = [(GetContent, false);
        (CreateOrUpdateFileContents
           (mkParams "Create data/app.db from local" (base64 oversized) None), true)].
Proof.
  split.
  - rewrite oversized_size. apply N.lt_add_pos_r. reflexivity.
  - eapply (syncNow_creates_with_contents_call _ Scripted.client
             (loaded true (Some oversized)) _ _ _ true oversized
             Scripted.not_found (mkPutData "s1")).
    + reflexivity.
    + rewrite oversized_size. rewrite N.add_1_r. apply N.neq_succ_0.
    + now right.
    + reflexivity.
    + reflexivity.
    + reflexivity.
Qed.





(** C6 (counterexample).  Dirty, empty local file, remote absent: [syncNow]
    clears [dirty] and no push was made, let alone confirmed. *)
Lemma dirty_cleared_without_push :
  dirty (set_dirty true (loaded true (Some []))) = true
  /\ dirty (final (run Scripted.client (syncNow false)
                     (set_dirty true (loaded true (Some [])))
                     [Scripted.Fails Scripted.not_found])) = false
  /\ writes (trace (run Scripted.client (syncNow false)
                      (set_dirty true (loaded true (Some [])))
                      [Scripted.Fails Scripted.not_found])) = []
  /\ push_confirmed (trace (run Scripted.client (syncNow false)
                              (set_dirty true (loaded true (Some [])))
                              [Scripted.Fails Scripted.not_found])) = false.
Proof.
  repeat split; reflexivity.
Qed.

Lemma dirty_cleared_only_on_push_or_refusal_witness :
  push_confirmed
    (trace (run Scripted.client (syncNow false)
              (set_dirty true (loaded true (Some ABC)))
              [Scripted.Content (FileData "s1"); Scripted.Put (mkPutData "s2")]))
    = true
  \/ (localDb (set_dirty true (loaded true (Some ABC))) = Some []
      /\ lookup_absent
           (fst (Scripted.client GetContent
                   [Scripted.Content (FileData "s1"); Scripted.Put (mkPutData "s2")]))
         = true
      /\ trace (run Scripted.client (syncNow false)
                  (set_dirty true (loaded true (Some ABC)))
                  [Scripted.Content (FileData "s1"); Scripted.Put (mkPutData "s2")])
         = [(GetContent,
             settled_ok
               (fst (Scripted.client GetContent
                       [Scripted.Content (FileData "s1");
                        Scripted.Put (mkPutData "s2")])))]).
Proof.
  apply (proj1 (dirty_cleared_only_on_push_or_refusal Scripted.configError _
                  Scripted.client (set_dirty true (loaded true (Some ABC)))
                  [Scripted.Content (FileData "s1"); Scripted.Put (mkPutData "s2")]
                  false));
    reflexivity.
Defined.

(** The remote path is a directory and there is no local file. *)
Lemma init_absorbs_failure_without_status_witness :
  result (run Scripted.client getRemoteSha (loaded false None)
            [Scripted.Content DirListing])
    = inl (Error "Expected file, found directory at data/app.db")
  /\ result (run Scripted.client (initDataSync Scripted.configError)
               (loaded false None) [Scripted.Content DirListing]) = inr tt
  /\ trace (run Scripted.client (initDataSync Scripted.configError)
              (loaded false None) [Scripted.Content DirListing])
     = [(GetContent, true)]
  /\ localDb (final (run Scripted.client (initDataSync Scripted.configError)
                       (loaded false None) [Scripted.Content DirListing]))
     = Some [].
Proof.
  apply (proj1 (proj2 (proj2
           (init_absorbs_failure_without_status Scripted.configError _
              Scripted.client (loaded false None) [Scripted.Content DirListing] []
              (inr DirListing) eq_refl eq_refl)))).
  reflexivity.
Defined.

(** The seed of ABC is rejected for want of a sha, the fresh lookup finds
    tag s1, and the write goes out again with it. *)
Lemma putFileContents_retries_once_witness :
  trace (run Scripted.client
           (putFileContents (base64 ABC) "Initialize data/app.db from local" None)
           (loaded true (Some ABC))
           [Scripted.Fails Scripted.sha_missing; Scripted.Content (FileData "s1");
            Scripted.Put (mkPutData "s2")])
    = [(CreateOrUpdateFileContents (seed_params None), false);
       (GetContent, true);
       (CreateOrUpdateFileContents (seed_params (Some "s1")), true)]
  /\ result (run Scripted.client
               (putFileContents (base64 ABC) "Initialize data/app.db from local" None)
               (loaded true (Some ABC))
               [Scripted.Fails Scripted.sha_missing; Scripted.Content (FileData "s1");
                Scripted.Put (mkPutData "s2")])
     = inr (mkPutData "s2").
Proof.
  apply (proj1 (putFileContents_retries_once Scripted.configError _ Scripted.client
                  (loaded true (Some ABC))
                  [Scripted.Fails Scripted.sha_missing;
                   Scripted.Content (FileData "s1"); Scripted.Put (mkPutData "s2")]
                  [Scripted.Content (FileData "s1"); Scripted.Put (mkPutData "s2")]
                  [Scripted.Put (mkPutData "s2")]
                  (base64 ABC) "Initialize data/app.db from local" "s1"
                  Scripted.sha_missing eq_refl eq_refl eq_refl
                  ltac:(discriminate))).
Defined.

(** ** The event loop: timers and pushes in flight *)

Section LoopProperties.

Variable configError : string -> JsError.
Variable R : Type.
Variable client : forall c : Call, R -> Settled (resp c) * R.

Local Abbreviation Loop := (Loop R).

Lemma spawn_frame (kd : Kind) (p : Prog unit) (l : Loop) :
  Framed keeps_timers p -> tasks_framed l ->
  tasks_framed (spawn kd p l)
  /\ timer (state (spawn kd p l)) = timer (state l)
  /\ timeouts (state (spawn kd p l)) = timeouts (state l).
Proof.
  intros Hp Hf. unfold spawn.
  destruct (start_framed _ p Hp (state l)) as (H1 & H2 & H3).
  destruct (start p (state l)) as [s [res | c k]]; simpl in *; repeat split; auto.
  unfold tasks_framed in *. simpl. apply Forall_app. split; auto.
Qed.

Lemma spawn_Inv (kd : Kind) (p : Prog unit) (l : Loop) :
  Framed keeps_timers p -> Inv l -> Inv (spawn kd p l).
Proof.
  intros Hp [Ht Hf]. destruct (spawn_frame kd p l Hp Hf) as (H1 & H2 & H3).
  split; auto. unfold timers_ok in *. now rewrite H2, H3.
Qed.

Lemma remove_nth_Forall (A : Type) (P : A -> Prop) (l : list A) :
  Forall P l -> forall i, Forall P (remove_nth i l).
Proof.
  induction 1; intros [| i]; simpl; auto.
Qed.

Lemma replace_nth_Forall (A : Type) (P : A -> Prop) (y : A) (l : list A) :
  Forall P l -> P y -> forall i, Forall P (replace_nth i y l).
Proof.
  induction 1; intros Hy [| i]; simpl; auto.
Qed.

Lemma settle_Inv (i : nat) (l : Loop) : Inv l -> Inv (settle client i l).
Proof.
  intros [Ht Hf]. unfold settle.
  destruct (nth_error (inflight l) i) as [t |] eqn:Hn; [| split; auto].
  assert (Hres : forall a, Framed keeps_timers (resume t a)).
  { unfold tasks_framed in Hf. rewrite Forall_forall in Hf.
    apply Hf. eapply nth_error_In; eauto. }
  cbv zeta.
  destruct (start_framed _ _ (Hres (fst (client (awaiting t) (repo l)))) (state l))
    as (H1 & H2 & H3).
  destruct (start _ (state l)) as [s [res | c k]]; simpl in *; split.
  - unfold timers_ok in *. simpl. now rewrite H1, H2.
  - unfold tasks_framed. simpl. now apply remove_nth_Forall.
  - unfold timers_ok in *. simpl. now rewrite H1, H2.
  - unfold tasks_framed. simpl. now apply replace_nth_Forall.
Qed.

Lemma markDataDirty_starts (l : Loop) :
  spawn KPush markDataDirty l
  = with_state (fun s => match timer s with
                           | Some _ => set_dirty true s
                           | None => setTimeout (set_dirty true s)
                           end) l.
Proof.
  unfold spawn, with_state. simpl. destruct (timer (state l)); reflexivity.
Qed.

Lemma onSignal_Inv (sig : Signal) (l : Loop) : Inv l -> Inv (onSignal sig l).
Proof.
  intros Hl. unfold onSignal.
  destruct (handlers sig (state l)) as [| n] eqn:Hs.
  - destruct Hl as [Ht Hf]. split; auto.
  - generalize (S n). intros m. induction m as [| m IH]; simpl; auto.
    destruct (exited _); auto.
    apply spawn_Inv; auto. apply shutdown_framed.
Qed.

Lemma step_Inv (ev : Event) (l : Loop) : Inv l -> Inv (step configError client ev l).
Proof.
  intros Hl. unfold step. destruct (exited (state l)); auto.
  destruct ev as [| | force | h | | sig | i].
  - apply spawn_Inv; auto. apply initDataSync_framed.
  - rewrite markDataDirty_starts. destruct Hl as [Ht Hf]. split; auto.
    unfold timers_ok in *. simpl.
    destruct (timer (state l)) eqn:E; simpl; rewrite ?E; auto. now rewrite Ht.
  - apply spawn_Inv; auto. apply syncNow_framed.
  - destruct (existsb _ _) eqn:Hex; auto.
    destruct Hl as [Ht Hf]. unfold timers_ok in Ht. rewrite Ht in Hex.
    destruct (timer (state l)) as [h' |] eqn:E; simpl in Hex; [| discriminate].
    rewrite orb_false_r in Hex. apply Nat.eqb_eq in Hex. subst h'.
    unfold onTimeout.
    destruct (spawn_frame KPush (syncNow false) (with_state (drop_timeout h) l)
                (syncNow_framed false) Hf) as (H1 & H2 & H3).
    split; [| exact H1].
    unfold timers_ok. simpl. rewrite H3. simpl. rewrite Ht. simpl.
    now rewrite Nat.eqb_refl.
  - destruct (intervals (state l)); auto. unfold onInterval.
    destruct (dirty (state l)); auto.
    apply spawn_Inv; auto. apply syncNow_framed.
  - now apply onSignal_Inv.
  - now apply settle_Inv.
Qed.

Lemma exec_Inv (evs : list Event) : forall l, Inv l -> Inv (exec configError client evs l).
Proof.
  induction evs as [| ev evs IH]; intros l Hl; simpl; auto.
  apply IH. now apply step_Inv.
Qed.

Lemma boot_Inv (dir : bool) (db : option Buffer) (r : R) : Inv (boot dir db r).
Proof.
  split; [reflexivity | constructor].
Qed.

(** [markDataDirty] again, while a timer is armed and [dirty] is set,
    changes nothing. *)
Lemma markDataDirty_again (l : Loop) (h : nat) :
  exited (state l) = false -> dirty (state l) = true -> timer (state l) = Some h ->
  step configError client EvMarkDirty l = l.
Proof.
  intros Hx Hd Ht. unfold step. rewrite Hx, markDataDirty_starts.
  destruct l as [s r lg fl]. unfold with_state. simpl in *. rewrite Ht.
  destruct s. simpl in *. subst. reflexivity.
Qed.

Lemma markDataDirty_burst (n : nat) (l : Loop) (h : nat) :
  exited (state l) = false -> dirty (state l) = true -> timer (state l) = Some h ->
  exec configError client (repeat EvMarkDirty n) l = l.
Proof.
  intros Hx Hd Ht. induction n as [| n IH]; simpl; auto.
  now rewrite (markDataDirty_again l h).
Qed.

(** What a call of [syncNow] does before its first [await]. *)
Lemma syncNow_starts (force : bool) (l : Loop) :
  dirty (state l) = true \/ force = true ->
  exists k,
    spawn KPush (syncNow force) l
    = mkLoop (state l) (repo l) (log l)
             (inflight l ++ match localDb (state l) with
                            | Some _ => [mkTask KPush GetContent k]
                            | None => []
                            end).
Proof.
  intros Hgo.
  assert (Hguard : negb (dirty (state l)) && negb force = false)
    by (destruct Hgo as [-> | ->]; [reflexivity | apply andb_false_r]).
  unfold spawn, syncNow, getRemoteSha, getContent. simpl. rewrite Hguard. simpl.
  destruct (localDb (state l)); simpl.
  - eexists. reflexivity.
  - exists (fun _ => Ret tt). now rewrite app_nil_r.
Qed.

(** C8 (amended).  From a state with no timer armed, a burst of one or
    more [markDataDirty] calls arms exactly one debounce timer, leaves
    [dirty] set and starts nothing; when that timer fires, the timer is
    cleared and exactly one push is started (none if the local file is
    missing).  In any state, [markDataDirty] schedules a new callback
    exactly when [timer] is null, whether or not a push is in flight. *)
Theorem debounce_coalescing (l : Loop) (n : nat) :
  exited (state l) = false ->
  timer (state l) = None ->
  timeouts (state l) = [] ->
  let h := nextHandle (state l) in
  let armed := exec configError client (repeat EvMarkDirty (S n)) l in
  let fired := step configError client (EvTimeout h) armed in
  (dirty (state armed) = true
   /\ timer (state armed) = Some h
   /\ timeouts (state armed) = [h]
   /\ inflight armed = inflight l)
  /\ (timer (state fired) = None
      /\ timeouts (state fired) = []
      /\ exists k,
          inflight fired
          = inflight l ++ match localDb (state l) with
                          | Some _ => [mkTask KPush GetContent k]
                          | None => []
                          end)
  /\ (forall l' : Loop,
        exited (state l') = false ->
        timeouts (state (step configError client EvMarkDirty l'))
        = timeouts (state l') ++ match timer (state l') with
                                 | Some _ => []
                                 | None => [nextHandle (state l')]
                                 end).
Proof.
  intros Hx Ht Hq h armed fired.
  assert (Harmed : armed = with_state (fun s => setTimeout (set_dirty true s)) l).
  { unfold armed. simpl.
    assert (H1 : step configError client EvMarkDirty l
                 = with_state (fun s => setTimeout (set_dirty true s)) l).
    { unfold step. rewrite Hx, markDataDirty_starts.
      unfold with_state. now rewrite Ht. }
    rewrite H1. apply (markDataDirty_burst n _ h); simpl; auto. }
  split; [| split].
  - rewrite Harmed. simpl. rewrite Hq. auto.
  - unfold fired. rewrite Harmed. unfold step. simpl. rewrite Hx, Hq. simpl.
    fold h. rewrite Nat.eqb_refl. simpl. unfold onTimeout.
    destruct (syncNow_starts false
                (with_state (drop_timeout h)
                   (with_state (fun s => setTimeout (set_dirty true s)) l)))
      as [k Hk]; [now left |].
    rewrite Hk. simpl. rewrite Hq. simpl. rewrite Nat.eqb_refl. simpl. eauto.
  - intros l' Hx'. unfold step. rewrite Hx', markDataDirty_starts. simpl.
    destruct (timer (state l')); simpl; auto. now rewrite app_nil_r.
Qed.

(** What the signal handler does before its first [await], when there is
    something to flush. *)
Lemma shutdown_starts (l : Loop) :
  dirty (state l) = true ->
  localDb (state l) <> None ->
  exists k,
    spawn KShutdown shutdown l
    = mkLoop (state l) (repo l) (log l) (inflight l ++ [mkTask KShutdown GetContent k]).
Proof.
  intros Hd Hdb. destruct (localDb (state l)) as [buf |] eqn:E; [| contradiction].
  unfold spawn, shutdown, syncNow, getRemoteSha, getContent, get.
  simpl. rewrite Hd. simpl. rewrite Hd. simpl. rewrite E. simpl.
  eexists. reflexivity.
Qed.

(** One more task that is inside [syncNow] is one more push in flight. *)
Lemma pushes_snoc (s : St) (r : R) (lg : list Entry) (fl : list Task) (t : Task) :
  is_push t = true ->
  length (pushes (mkLoop s r lg (fl ++ [t]))) = S (length (pushes (mkLoop s r lg fl))).
Proof.
  intros Ht. unfold pushes. simpl. rewrite filter_app, length_app. simpl.
  rewrite Ht. simpl. lia.
Qed.

(** The handlers of a signal, run one after the other over a dirty state:
    each of them starts a push. *)
Lemma handlers_start_pushes (n : nat) (l : Loop) :
  exited (state l) = false ->
  dirty (state l) = true ->
  localDb (state l) <> None ->
  let l' := Nat.iter n (fun l' => if exited (state l') then l'
                                  else spawn KShutdown shutdown l') l in
  state l' = state l /\ length (pushes l') = length (pushes l) + n.
Proof.
  intros Hx Hd Hdb. induction n as [| n [IHs IHp]]; simpl; [split; [reflexivity | lia] |].
  rewrite IHs, Hx.
  match goal with |- context [spawn KShutdown shutdown ?m] => set (l0 := m) in * end.
  destruct (shutdown_starts l0) as [k Hk]; [now rewrite IHs | now rewrite IHs |].
  rewrite Hk. split; [exact IHs |].
  rewrite pushes_snoc by reflexivity.
  destruct l0 as [s0 r0 lg0 fl0]. simpl in *. rewrite IHp. lia.
Qed.

(** C9 (amended).  At most one debounce callback is scheduled at any time:
    in every state reachable from a freshly loaded module, the scheduled
    callbacks are exactly the one [timer] names.  Pushes are not gated.  In
    a running process with a local file, whatever is already in flight: a
    direct [syncNow] call that is forced or finds [dirty] set, the debounce
    callback when [dirty] is set, and the periodic tick when [dirty] is set
    each start one more push, and a signal starts one more push for each
    handler registered for it; so [n] forced calls in a row leave [n] more
    pushes in flight. *)
Theorem one_timer_but_no_push_gate :
  (forall (dir : bool) (db : option Buffer) (r : R) (evs : list Event),
      timeouts (state (exec configError client evs (boot dir db r)))
      = match timer (state (exec configError client evs (boot dir db r))) with
        | Some h => [h]
        | None => []
        end)
  /\ (forall l : Loop,
        exited (state l) = false ->
        localDb (state l) <> None ->
        (forall force : bool,
            dirty (state l) = true \/ force = true ->
            length (pushes (step configError client (EvSyncNow force) l))
            = S (length (pushes l)))
        /\ (forall h : nat,
              In h (timeouts (state l)) ->
              dirty (state l) = true ->
              length (pushes (step configError client (EvTimeout h) l))
              = S (length (pushes l)))
        /\ (intervals (state l) <> 0 ->
            dirty (state l) = true ->
            length (pushes (step configError client EvTick l)) = S (length (pushes l)))
        /\ (forall sig : Signal,
              dirty (state l) = true ->
              length (pushes (step configError client (EvSignal sig) l))
              = length (pushes l) + handlers sig (state l)))
  /\ (forall (l : Loop) (n : nat),
        exited (state l) = false ->
        localDb (state l) <> None ->
        length (pushes (exec configError client (repeat (EvSyncNow true) n) l))
        = length (pushes l) + n).
Proof.
  assert (Hpush : forall (l : Loop) (force : bool),
            localDb (state l) <> None ->
            dirty (state l) = true \/ force = true ->
            exists k,
              spawn KPush (syncNow force) l
              = mkLoop (state l) (repo l) (log l)
                       (inflight l ++ [mkTask KPush GetContent k])).
  { intros l force Hdb Hgo. destruct (syncNow_starts force l Hgo) as [k Hk].
    exists k. rewrite Hk. destruct (localDb (state l)); [reflexivity | contradiction]. }
  split; [| split].
  - intros dir db r evs. apply (exec_Inv evs (boot dir db r)). apply boot_Inv.
  - intros l Hx Hdb. split; [| split; [| split]].
    + intros force Hgo. unfold step. rewrite Hx.
      destruct (Hpush l force Hdb Hgo) as [k Hk]. rewrite Hk.
      unfold pushes. simpl. rewrite filter_app, length_app. simpl. lia.
    + intros h Hin Hd. unfold step. rewrite Hx.
      assert (Hex : existsb (Nat.eqb h) (timeouts (state l)) = true).
      { apply existsb_exists. exists h. split; [exact Hin | apply Nat.eqb_refl]. }
      rewrite Hex. unfold onTimeout.
      destruct (Hpush (with_state (drop_timeout h) l) false) as [k Hk];
        [exact Hdb | now left |].
      rewrite Hk. unfold pushes, with_state. simpl.
      rewrite filter_app, length_app. simpl. lia.
    + intros Hi Hd. unfold step. rewrite Hx.
      destruct (intervals (state l)); [contradiction |].
      unfold onInterval. rewrite Hd.
      destruct (Hpush l false Hdb) as [k Hk]; [now left |]. rewrite Hk.
      unfold pushes. simpl. rewrite filter_app, length_app. simpl. lia.
    + intros sig Hd. unfold step. rewrite Hx. unfold onSignal.
      destruct (handlers sig (state l)) as [| n] eqn:Hn.
      * unfold pushes. simpl. lia.
      * apply (handlers_start_pushes (S n) l Hx Hd Hdb).
  - intros l n. revert l. induction n as [| n IH]; intros l Hx Hdb; simpl; [lia |].
    destruct (Hpush l true Hdb) as [k Hk]; [now right |].
    assert (Hs : step configError client (EvSyncNow true) l
                 = mkLoop (state l) (repo l) (log l)
                          (inflight l ++ [mkTask KPush GetContent k])).
    { unfold step. now rewrite Hx, Hk. }
    rewrite Hs, IH; simpl; auto.
    unfold pushes. simpl. rewrite filter_app, length_app. simpl. lia.
Qed.

End LoopProperties.

(** ** Concrete interleavings *)

(** C8 (counterexample).  While that push is in flight no timer is armed,
    and [markDataDirty] schedules a new debounce callback. *)
Lemma timer_started_while_push_in_flight :
  map awaiting (pushes flushing) = [GetContent]
  /\ timer (state flushing) = None
  /\ timeouts (state flushing) = []
  /\ timeouts (state (step Scripted.configError Scripted.client EvMarkDirty flushing))
     = [1]
  /\ map awaiting
       (pushes (step Scripted.configError Scripted.client EvMarkDirty flushing))
     = [GetContent].
Proof.
  repeat split; reflexivity.
Qed.

Lemma debounce_coalescing_witness :
  dirty (state (exec Scripted.configError Scripted.client (repeat EvMarkDirty 3)
                  (boot true (Some ABC) []))) = true
  /\ timer (state (exec Scripted.configError Scripted.client (repeat EvMarkDirty 3)
                    (boot true (Some ABC) []))) = Some 0
  /\ timeouts (state (exec Scripted.configError Scripted.client (repeat EvMarkDirty 3)
                       (boot true (Some ABC) []))) = [0]
  /\ inflight (exec Scripted.configError Scripted.client (repeat EvMarkDirty 3)
                 (boot true (Some ABC) [])) = [].
Proof.
  apply (proj1 (debounce_coalescing Scripted.configError _ Scripted.client
                  (boot true (Some ABC) []) 2 eq_refl eq_refl eq_refl)).
Defined.

(** C9 (counterexample).  Two pushes are in flight at once, both waiting
    for their version lookup. *)
Lemma two_pushes_in_flight :
  length (pushes overlapping) = 2
  /\ map awaiting (pushes overlapping) = [GetContent; GetContent]
  /\ lastKnownSha (state overlapping) = Some "s1"
  /\ dirty (state overlapping) = true.
Proof.
  repeat split; reflexivity.
Qed.

(** With those two pushes in flight, SIGTERM runs the handler registered
    at startup, which starts a third push. *)
Lemma one_timer_but_no_push_gate_witness :
  handlers SIGTERM (state overlapping) = 1
  /\ length (pushes (step Scripted.configError Scripted.client (EvSignal SIGTERM)
                       overlapping))
     = length (pushes overlapping) + handlers SIGTERM (state overlapping).
Proof.
  split; [reflexivity |].
  destruct (one_timer_but_no_push_gate Scripted.configError _ Scripted.client)
    as (_ & Hgate & _).
  destruct (Hgate overlapping eq_refl ltac:(discriminate)) as (_ & _ & _ & Hsig).
  apply Hsig. reflexivity.
Defined.

(** * Further properties *)

(** ** The failure class of the retry *)

Lemma prefix_app (a b : string) :
  prefix a b = true <-> exists post, b = (a ++ post)%string.
Proof.
  revert b. induction a as [| c a IH]; intros b; simpl.
  - split; [intros _; now exists b | intros _; destruct b; reflexivity].
  - destruct b as [| d b]; simpl.
    + split; [discriminate | intros [post H]; discriminate].
    + destruct (Ascii.ascii_dec c d) as [-> | Hne].
      * rewrite IH. split; intros [post H]; exists post.
        -- now rewrite H.
        -- now inversion H.
      * split; [discriminate | intros [post H]; inversion H; congruence].
Qed.

Lemma includes_eq (needle hay : string) :
  includes needle hay
  = if prefix needle hay then true
    else match hay with
         | EmptyString => false
         | String _ rest => includes needle rest
         end.
Proof.
  destruct hay; reflexivity.
Qed.

Lemma includes_spec (needle hay : string) :
  includes needle hay = true
  <-> exists pre post, hay = (pre ++ needle ++ post)%string.
Proof.
  split.
  - induction hay as [| c hay IH]; rewrite includes_eq;
      destruct (prefix needle _) eqn:Hp.
    + intros _. apply prefix_app in Hp. destruct Hp as [post H].
      now exists "", post.
    + discriminate.
    + intros _. apply prefix_app in Hp. destruct Hp as [post H].
      now exists "", post.
    + intros H. destruct (IH H) as (pre & post & E).
      exists (String c pre), post. simpl. now rewrite E.
  - intros (pre & post & E). subst hay.
    induction pre as [| c pre IH]; rewrite includes_eq.
    + assert (Hp : prefix needle (needle ++ post)%string = true)
        by (apply prefix_app; now exists post).
      simpl. now rewrite Hp.
    + destruct (prefix needle _); auto.
Qed.

(** The test of lines 80 and 259, spelled out. *)
Lemma is_sha_missing_spec (e : JsError) :
  is_sha_missing e = true
  <-> status e = Some 422%Z
      /\ exists pre post, message e = (pre ++ sha_wasnt_supplied ++ post)%string.
Proof.
  unfold is_sha_missing, status_is. split.
  - intros H. apply andb_prop in H. destruct H as [H Hi].
    apply andb_prop in H. destruct H as [Hs _]. split.
    + destruct (status e) as [z |]; [| discriminate].
      apply Z.eqb_eq in Hs. now subst.
    + now apply includes_spec.
  - intros [Hs (pre & post & Hm)]. rewrite Hs. simpl.
    assert (Hi : includes sha_wasnt_supplied (message e) = true)
      by (apply includes_spec; eauto).
    rewrite Hi, andb_true_r. rewrite Hm.
    destruct pre; reflexivity.
Qed.

(** ** Frames and composition of runs *)

(** Closes the leaves of a case analysis on a run. *)
Ltac settle_leaf :=
  intros;
  repeat match goal with H : _ /\ _ |- _ => destruct H end;
  try discriminate;
  repeat match goal with
         | H : inl _ = inl _ |- _ => inversion H; subst; clear H
         | H : inr _ = inr _ |- _ => inversion H; subst; clear H
         | H : Some _ = Some _ |- _ => inversion H; subst; clear H
         end;
  try discriminate; try reflexivity; try congruence; auto.

Ltac framed_by tac :=
  repeat (intros;
          match goal with
          | |- Framed _ _ => solve [auto with framed]
          | |- Framed _ (bind _ _) => apply Framed_bind
          | |- Framed _ (try_catch _ _) => apply Framed_catch
          | |- Framed _ (match ?x with _ => _ end) => destruct x
          | |- Framed _ _ => constructor
          | |- _ => tac
          end).

Lemma syncNow_keeps_host (force : bool) : Framed keeps_host (syncNow force).
Proof.
  unfold syncNow, get, modify. cbv zeta.
  framed_by ltac:(intros ?; repeat split).
Qed.

Lemma syncNow_keeps_running (force : bool) : Framed keeps_running (syncNow force).
Proof.
  unfold syncNow, get, modify. cbv zeta.
  framed_by ltac:(intros ?; reflexivity).
Qed.

Lemma initDataSync_keeps_running (configError : string -> JsError) :
  Framed keeps_running (initDataSync configError).
Proof.
  unfold initDataSync, fetchRemoteDbBuffer, getBlob, await, get, modify.
  framed_by ltac:(intros ?; reflexivity).
Qed.

Section FurtherSequential.

Variable configError : string -> JsError.
Variable R : Type.
Variable client : forall c : Call, R -> Settled (resp c) * R.

Local Abbreviation run := (run client).

(** A sequence runs its first part, then the rest from where that ended;
    an error of the first part ends the sequence. *)
Lemma run_from_bind (A B : Type) (p : Prog A) (f : A -> Prog B) :
  forall tr s r,
    run_from client tr (bind p f) s r
    = match result (run_from client tr p s r) with
      | inr a => run_from client (trace (run_from client tr p s r)) (f a)
                          (final (run_from client tr p s r))
                          (store (run_from client tr p s r))
      | inl e => mkRun (inl e) (final (run_from client tr p s r))
                       (store (run_from client tr p s r))
                       (trace (run_from client tr p s r))
      end.
Proof.
  induction p as [a | e | k IH | g k IH | c k IH]; intros tr s r; simpl; auto.
  destruct (client c r) as [x r']. apply IH.
Qed.

(** A try/catch runs its body; the handler runs from where a throwing body
    ended. *)
Lemma run_from_try_catch (A : Type) (p : Prog A) (h : JsError -> Prog A) :
  forall tr s r,
    run_from client tr (try_catch p h) s r
    = match result (run_from client tr p s r) with
      | inr a => mkRun (inr a) (final (run_from client tr p s r))
                       (store (run_from client tr p s r))
                       (trace (run_from client tr p s r))
      | inl e => run_from client (trace (run_from client tr p s r)) (h e)
                          (final (run_from client tr p s r))
                          (store (run_from client tr p s r))
      end.
Proof.
  induction p as [a | e | k IH | g k IH | c k IH]; intros tr s r; simpl; auto.
  destruct (client c r) as [x r']. apply IH.
Qed.

(** What every update of a program preserves, its runs preserve. *)
Lemma run_framed (ok : (St -> St) -> Prop) (I : St -> Prop) :
  (forall f s, ok f -> I s -> I (f s)) ->
  forall (A : Type) (p : Prog A), Framed ok p ->
  forall tr s r, I s -> I (final (run_from client tr p s r)).
Proof.
  intros Hok A p Hp.
  induction Hp as [a | e | k Hk IH | f k Hf Hk IH | c k Hk IH]; intros tr s r Hs;
    simpl; auto.
  destruct (client c r) as [x r']. now apply IH.
Qed.

(** ** The helpers *)

(** X1. When [putFileContents] writes a second time (lines 75-89): exactly
    when the first write is rejected with status 422 and a message that
    contains ["sha" wasn't supplied], and the fresh lookup then finds the
    object with a tag.  The second write carries that tag, and its outcome
    is what the caller gets.  A rejection with any other status (a 409
    conflict, say) is never followed by a second write. *)
Theorem putFileContents_second_write (s : St) (r : R) (content : Base64)
    (msg : string) (sha : option string) :
  let first := CreateOrUpdateFileContents (mkParams msg content (truthy sha)) in
  (length (puts (trace (run (putFileContents content msg sha) s r))) = 2
   <-> exists e t,
         fst (client first r) = inl e
         /\ status e = Some 422%Z
         /\ (exists pre post, message e = (pre ++ sha_wasnt_supplied ++ post)%string)
         /\ fst (client GetContent (snd (client first r))) = inr (FileData t)
         /\ t <> "")
  /\ (forall t,
        length (puts (trace (run (putFileContents content msg sha) s r))) = 2 ->
        fst (client GetContent (snd (client first r))) = inr (FileData t) ->
        let second := CreateOrUpdateFileContents (mkParams msg content (Some t)) in
        let r2 := snd (client GetContent (snd (client first r))) in
        trace (run (putFileContents content msg sha) s r)
          = [(first, false); (GetContent, true);
             (second, settled_ok (fst (client second r2)))]
        /\ result (run (putFileContents content msg sha) s r)
           = fst (client second r2)).
Proof.
  intros first. subst first.
  unfold run, putFileContents, getRemoteSha, getContent, createOrUpdateFileContents.
  simpl.
  destruct (client (CreateOrUpdateFileContents _) r) as [[e | d] r1]; simpl.
  - destruct (is_sha_missing e) eqn:He; simpl.
    + apply is_sha_missing_spec in He. destruct He as [Hst Hmsg].
      destruct (client GetContent r1) as [[e' | [| t]] r2]; simpl.
      * destruct (status_is e' 404); simpl; split;
          [ split; [discriminate | intros (? & ? & _ & _ & _ & H & _); discriminate]
          | discriminate
          | split; [discriminate | intros (? & ? & _ & _ & _ & H & _); discriminate]
          | discriminate ].
      * split; [| discriminate].
        split; [discriminate | intros (? & ? & _ & _ & _ & H & _); discriminate].
      * unfold or_null. destruct (String.eqb_spec t "") as [-> | Hne]; simpl.
        -- split; [| discriminate].
           split; [discriminate |].
           intros (? & t' & _ & _ & _ & H & Hne). inversion H. now subst.
        -- destruct (client _ r2) as [[e2 | d2] r3] eqn:Hu; simpl.
           ++ split.
              ** split; [intros _; exists e, t; auto | reflexivity].
              ** intros t' _ [= <-]. rewrite Hu. auto.
           ++ split.
              ** split; [intros _; exists e, t; auto | reflexivity].
              ** intros t' _ [= <-]. rewrite Hu. auto.
    + split; [| discriminate]. split; [discriminate |].
      intros (e0 & t & [= <-] & Hst & Hmsg & _).
      assert (H : is_sha_missing e = true) by (apply is_sha_missing_spec; auto).
      congruence.
  - split; [| discriminate].
    split; [discriminate | intros (? & ? & H & _); discriminate].
Qed.

(** X2. [getRemoteSha] (lines 33-47) makes exactly one call, the path
    lookup, and changes nothing.  It returns null exactly when the store
    says 404 or the answer has no sha; a tag it returns is never empty; and
    it never throws a 404. *)
Theorem getRemoteSha_spec (s : St) (r : R) :
  trace (run getRemoteSha s r)
    = [(GetContent, settled_ok (fst (client GetContent r)))]
  /\ final (run getRemoteSha s r) = s
  /\ store (run getRemoteSha s r) = snd (client GetContent r)
  /\ (result (run getRemoteSha s r) = inr None
      <-> lookup_absent (fst (client GetContent r)) = true)
  /\ (forall sha, result (run getRemoteSha s r) = inr (Some sha)
                  <-> fst (client GetContent r) = inr (FileData sha) /\ sha <> "")
  /\ (forall e, result (run getRemoteSha s r) = inl e -> status_is e 404 = false).
Proof.
  unfold run, getRemoteSha, getContent. simpl.
  destruct (client GetContent r) as [[e | [| sha]] r1]; simpl.
  - destruct (status_is e 404) eqn:H404; simpl; repeat split; settle_leaf.
  - repeat split; settle_leaf.
  - unfold or_null. destruct (String.eqb_spec sha ""); simpl; repeat split;
      settle_leaf.
Qed.

(** X3. [fetchRemoteDbBuffer] (lines 49-63) only reads: it changes nothing
    and writes nothing.  It returns null after the lookup alone, without
    asking for a blob; and what it returns otherwise is the tag the lookup
    answered with, together with the buffer read out of the blob that was
    requested under that tag. *)
Theorem fetchRemoteDbBuffer_reads_only (s : St) (r : R) :
  existsb (fun e => is_write (fst e)) (trace (run fetchRemoteDbBuffer s r)) = false
  /\ final (run fetchRemoteDbBuffer s r) = s
  /\ (result (run fetchRemoteDbBuffer s r) = inr None ->
      lookup_absent (fst (client GetContent r)) = true
      /\ trace (run fetchRemoteDbBuffer s r)
         = [(GetContent, settled_ok (fst (client GetContent r)))])
  /\ (forall buf sha,
        result (run fetchRemoteDbBuffer s r) = inr (Some (buf, sha)) ->
        fst (client GetContent r) = inr (FileData sha)
        /\ sha <> ""
        /\ trace (run fetchRemoteDbBuffer s r)
           = [(GetContent, true); (GetBlob sha, true)]
        /\ exists body,
             fst (client (GetBlob sha) (snd (client GetContent r))) = inr body
             /\ blob_buffer body = Some buf).
Proof.
  unfold run, fetchRemoteDbBuffer, getRemoteSha, getContent, getBlob. simpl.
  destruct (client GetContent r) as [[e | [| sha]] r1]; simpl.
  - destruct (status_is e 404); simpl; repeat split; congruence.
  - repeat split; congruence.
  - destruct (or_null sha) as [t |] eqn:Ht; simpl.
    2: { unfold or_null in Ht. destruct (String.eqb sha ""); [| discriminate].
         repeat split; congruence. }
    apply or_null_truthy in Ht. destruct Ht as [-> Hne].
    destruct (client (GetBlob sha) r1) as [[e | body] r2] eqn:Hblob; simpl;
      [repeat split; congruence |].
    destruct (blob_buffer body) as [buf |] eqn:Hb; simpl;
      [| repeat split; congruence].
    split; [reflexivity |]. split; [reflexivity |]. split; [discriminate |].
    intros buf' sha' [= <- <-].
    split; [reflexivity |]. split; [exact Hne |]. split; [reflexivity |].
    exists body. rewrite Hblob. split; [reflexivity | exact Hb].
Qed.

(** X4. [commitRawBlob] (lines 92-138) advances the branch all or nothing.
    When it returns, its six calls all resolved, in order, each fed with
    the answers before it: the blob holds the buffer, the commit asked for
    is the head the reference names, the tree is built on the tree of that
    head with the new blob, the commit has that tree and the head as its
    parent, the reference is set to that commit, and the pair returned is
    that commit with the blob.  When it throws, the call that failed is the
    last one made, every call before it resolved, and no reference update
    resolved.  It changes nothing locally and makes no contents call. *)
Theorem commitRawBlob_all_or_nothing (buf : Buffer) (msg : string) (s : St) (r : R) :
  final (run (commitRawBlob buf msg) s r) = s
  /\ forallb (fun e => is_blob_path (fst e)) (trace (run (commitRawBlob buf msg) s r))
     = true
  /\ (forall commit blob,
        result (run (commitRawBlob buf msg) s r) = inr (commit, blob) ->
        exists (base baseTree tree : string) (r1 r2 r3 r4 r5 : R),
          client (CreateBlob (base64 buf)) r = (inr blob, r1)
          /\ client GetRef r1 = (inr base, r2)
          /\ client (GetCommit base) r2 = (inr baseTree, r3)
          /\ client (CreateTree baseTree blob) r3 = (inr tree, r4)
          /\ client (CreateCommit msg tree base) r4 = (inr commit, r5)
          /\ client (UpdateRef commit) r5
             = (inr tt, store (run (commitRawBlob buf msg) s r))
          /\ trace (run (commitRawBlob buf msg) s r)
             = [(CreateBlob (base64 buf), true); (GetRef, true);
                (GetCommit base, true); (CreateTree baseTree blob, true);
                (CreateCommit msg tree base, true); (UpdateRef commit, true)])
  /\ (forall e,
        result (run (commitRawBlob buf msg) s r) = inl e ->
        existsb (fun en => is_updateRef (fst en) && snd en)
                (trace (run (commitRawBlob buf msg) s r)) = false
        /\ exists pre c,
             trace (run (commitRawBlob buf msg) s r) = pre ++ [(c, false)]
             /\ forallb snd pre = true).
Proof.
  unfold run. focus_run. unfold commitRawBlob.
  crunch client; subst Q; simpl; repeat split; try discriminate; try reflexivity.
  all: try (intros ? ? [= <- <-];
            match goal with u : resp (UpdateRef _) |- _ => destruct u end;
            do 8 eexists; repeat split; eassumption).
  all: try match goal with
       | |- exists pre c, ?l = _ /\ _ =>
           exists (removelast l), (fst (last l (GetRef, false)));
           split; reflexivity
       end.
Qed.

(** X5. The errors of [putFileContents] (lines 75-89).  A rejection that is
    not the sha-missing one goes to the caller after the single write.  A
    sha-missing rejection whose fresh lookup finds the object absent goes
    to the caller too, after the lookup and with no second write.  If the
    fresh lookup itself fails, its error is what the caller gets.  In no
    case is anything changed locally. *)
Theorem putFileContents_error_paths (s : St) (r r1 : R) (content : Base64)
    (msg : string) (sha : option string) (e : JsError) :
  client (CreateOrUpdateFileContents (mkParams msg content (truthy sha))) r
    = (inl e, r1) ->
  final (run (putFileContents content msg sha) s r) = s
  /\ (is_sha_missing e = false ->
      result (run (putFileContents content msg sha) s r) = inl e
      /\ trace (run (putFileContents content msg sha) s r)
         = [(CreateOrUpdateFileContents (mkParams msg content (truthy sha)), false)])
  /\ (is_sha_missing e = true ->
      lookup_absent (fst (client GetContent r1)) = true ->
      result (run (putFileContents content msg sha) s r) = inl e
      /\ trace (run (putFileContents content msg sha) s r)
         = [(CreateOrUpdateFileContents (mkParams msg content (truthy sha)), false);
            (GetContent, settled_ok (fst (client GetContent r1)))])
  /\ (is_sha_missing e = true ->
      forall e', fst (client GetContent r1) = inl e' ->
                 status_is e' 404 = false ->
                 result (run (putFileContents content msg sha) s r) = inl e').
Proof.
  intros Hu. unfold run, putFileContents, getRemoteSha, getContent,
    createOrUpdateFileContents.
  simpl. rewrite Hu. simpl.
  destruct (is_sha_missing e); simpl.
  - destruct (client GetContent r1) as [[e' | [| t]] r2]; simpl.
    + destruct (status_is e' 404) eqn:H404; simpl; repeat split; settle_leaf.
    + repeat split; settle_leaf.
    + unfold or_null. destruct (String.eqb t "") eqn:Ht; simpl.
      * repeat split; settle_leaf.
      * destruct (client _ r2) as [[e2 | d] r3]; simpl; repeat split;
          settle_leaf.
  - repeat split; settle_leaf.
Qed.

(** ** Startup *)

(** X6. No blank seed (lines 192-201).  When the lookup reports the remote
    object absent and the local file is missing or empty, [initDataSync]
    makes no other remote call, so it writes nothing to the remote; it
    returns normally, the local file exists and is empty, and
    [lastKnownSha] is left as it was. *)
Theorem init_never_seeds_blank (s : St) (r : R) :
  lookup_absent (fst (client GetContent r)) = true ->
  localDb s = None \/ localDb s = Some [] ->
  result (run (initDataSync configError) s r) = inr tt
  /\ trace (run (initDataSync configError) s r)
     = [(GetContent, settled_ok (fst (client GetContent r)))]
  /\ localDb (final (run (initDataSync configError) s r)) = Some []
  /\ lastKnownSha (final (run (initDataSync configError) s r)) = lastKnownSha s.
Proof.
  intros Habs Hdb. absent_cases Habs Hc;
    unfold run, initDataSync, fetchRemoteDbBuffer, getRemoteSha, getContent;
    init_lookup s Habs Hc; destruct Hdb as [Hdb | Hdb]; rewrite Hdb; simpl;
    rewrite ?Hdb; auto.
Qed.

(** X7. One-time seed (lines 169-179).  When the lookup reports the remote
    object absent, the local file is not empty and within the size limit,
    and the create call resolves, [initDataSync] makes exactly that one
    write, without a tag and with the content of the local file; the local
    file is unchanged, [lastKnownSha] is the tag of the answer, and the
    periodic flush and the signal handlers are installed. *)
Theorem init_seeds_once (s : St) (r r2 : R) (buf : Buffer) (data : PutData) :
  lookup_absent (fst (client GetContent r)) = true ->
  localDb s = Some buf ->
  buf <> [] ->
  (size buf <= SIZE_WARN_LIMIT)%N ->
  client (CreateOrUpdateFileContents (init_params buf)) (snd (client GetContent r))
    = (inr data, r2) ->
  result (run (initDataSync configError) s r) = inr tt
  /\ trace (run (initDataSync configError) s r)
     = [(GetContent, settled_ok (fst (client GetContent r)));
        (CreateOrUpdateFileContents (init_params buf), true)]
  /\ store (run (initDataSync configError) s r) = r2
  /\ localDb (final (run (initDataSync configError) s r)) = Some buf
  /\ lastKnownSha (final (run (initDataSync configError) s r))
     = or_null (content_sha data)
  /\ intervals (final (run (initDataSync configError) s r)) = S (intervals s)
  /\ sigintHandlers (final (run (initDataSync configError) s r)) = S (sigintHandlers s)
  /\ sigtermHandlers (final (run (initDataSync configError) s r)) = S (sigtermHandlers s).
Proof.
  intros Habs Hdb Hne Hsz Hu. apply N.leb_le in Hsz. unfold init_params in *.
  destruct buf as [| b buf]; [contradiction |].
  absent_cases Habs Hc;
    unfold run, initDataSync, fetchRemoteDbBuffer, getRemoteSha, getContent,
      putFileContents, createOrUpdateFileContents;
    init_lookup s Habs Hc; rewrite Hdb; simpl; rewrite Hsz; simpl; rewrite Hu;
    simpl; repeat split; auto.
Qed.

(** X8. The seed of a large file (lines 180-184).  When the lookup reports
    the remote object absent, the local file is above the size limit and
    the six calls of the blob commit resolve, [initDataSync] makes no
    contents call; after the commit it looks the object up again and
    [lastKnownSha] is the tag of that second lookup. *)
Theorem init_seeds_large_file (s : St) (r r2 r3 r4 r5 r6 r7 r8 : R) (buf : Buffer)
    (blob base baseTree tree commit sha : string) :
  lookup_absent (fst (client GetContent r)) = true ->
  localDb s = Some buf ->
  (SIZE_WARN_LIMIT < size buf)%N ->
  client (CreateBlob (base64 buf)) (snd (client GetContent r)) = (inr blob, r2) ->
  client GetRef r2 = (inr base, r3) ->
  client (GetCommit base) r3 = (inr baseTree, r4) ->
  client (CreateTree baseTree blob) r4 = (inr tree, r5) ->
  client (CreateCommit "Initialize data/app.db from local (large file)" tree base) r5
    = (inr commit, r6) ->
  client (UpdateRef commit) r6 = (inr tt, r7) ->
  client GetContent r7 = (inr (FileData sha), r8) ->
  result (run (initDataSync configError) s r) = inr tt
  /\ trace (run (initDataSync configError) s r)
     = [(GetContent, settled_ok (fst (client GetContent r)));
        (CreateBlob (base64 buf), true); (GetRef, true); (GetCommit base, true);
        (CreateTree baseTree blob, true);
        (CreateCommit "Initialize data/app.db from local (large file)" tree base, true);
        (UpdateRef commit, true); (GetContent, true)]
  /\ lastKnownSha (final (run (initDataSync configError) s r)) = or_null sha
  /\ localDb (final (run (initDataSync configError) s r)) = Some buf.
Proof.
  intros Habs Hdb Hsz H1 H2 H3 H4 H5 H6 H7.
  assert (Hleb : (size buf <=? SIZE_WARN_LIMIT)%N = false) by now apply N.leb_gt.
  destruct buf as [| b buf].
  { unfold size in Hsz. simpl in Hsz. now apply N.nlt_0_r in Hsz. }
  absent_cases Habs Hc;
    unfold run, initDataSync, fetchRemoteDbBuffer, commitRawBlob, getRemoteSha,
      createBlob, getRef, getCommit, createTree, createCommit, updateRef,
      getContent;
    init_lookup s Habs Hc; rewrite Hdb; simpl; rewrite Hleb; simpl;
    rewrite H1; simpl; rewrite H2; simpl; rewrite H3; simpl; rewrite H4; simpl;
    rewrite H5; simpl; rewrite H6; simpl; rewrite H7; simpl; repeat split; auto.
Qed.

(** X9. Failure of the seed (lines 185-191).  When the create call of the
    seed is rejected with status 404, what [initDataSync] throws is the
    error built by [configError], not the rejection; a rejection with
    another status, the sha-missing one apart, is thrown as it is.  Either
    way the remote got the lookup and the one write, [lastKnownSha] is left
    as it was, and neither the periodic flush nor the signal handlers are
    installed. *)
Theorem init_seed_failure (s : St) (r r2 : R) (buf : Buffer) (e : JsError) :
  lookup_absent (fst (client GetContent r)) = true ->
  localDb s = Some buf ->
  buf <> [] ->
  (size buf <= SIZE_WARN_LIMIT)%N ->
  client (CreateOrUpdateFileContents (init_params buf)) (snd (client GetContent r))
    = (inl e, r2) ->
  is_sha_missing e = false ->
  result (run (initDataSync configError) s r)
    = inl (if status_is e 404 then configError seed_failure_message else e)
  /\ trace (run (initDataSync configError) s r)
     = [(GetContent, settled_ok (fst (client GetContent r)));
        (CreateOrUpdateFileContents (init_params buf), false)]
  /\ lastKnownSha (final (run (initDataSync configError) s r)) = lastKnownSha s
  /\ intervals (final (run (initDataSync configError) s r)) = intervals s
  /\ sigintHandlers (final (run (initDataSync configError) s r)) = sigintHandlers s
  /\ sigtermHandlers (final (run (initDataSync configError) s r)) = sigtermHandlers s.
Proof.
  intros Habs Hdb Hne Hsz Hu He. apply N.leb_le in Hsz.
  unfold init_params, seed_failure_message in *.
  destruct buf as [| b buf]; [contradiction |].
  absent_cases Habs Hc;
    unfold run, initDataSync, fetchRemoteDbBuffer, getRemoteSha, getContent,
      putFileContents, createOrUpdateFileContents;
    init_lookup s Habs Hc; rewrite Hdb; simpl; rewrite Hsz; simpl; rewrite Hu;
    simpl; rewrite He; simpl; destruct (status_is e 404); simpl;
    repeat split; auto.
Qed.

(** What holds of every run of [initDataSync]. *)
Lemma initDataSync_summary (s : St) (r : R) :
  localDir (final (run (initDataSync configError) s r)) = true
  /\ (result (run (initDataSync configError) s r) = inr tt ->
      localDb (final (run (initDataSync configError) s r)) <> None
      /\ intervals (final (run (initDataSync configError) s r)) = S (intervals s)
      /\ sigintHandlers (final (run (initDataSync configError) s r))
         = S (sigintHandlers s)
      /\ sigtermHandlers (final (run (initDataSync configError) s r))
         = S (sigtermHandlers s))
  /\ (forall e, result (run (initDataSync configError) s r) = inl e ->
      localDb (final (run (initDataSync configError) s r)) = localDb s
      /\ lastKnownSha (final (run (initDataSync configError) s r)) = lastKnownSha s
      /\ intervals (final (run (initDataSync configError) s r)) = intervals s
      /\ sigintHandlers (final (run (initDataSync configError) s r)) = sigintHandlers s
      /\ sigtermHandlers (final (run (initDataSync configError) s r)) = sigtermHandlers s)
  /\ length (trace (run (initDataSync configError) s r)) <= 9
  /\ length (puts (trace (run (initDataSync configError) s r))) <= 2
  /\ length (ref_updates (trace (run (initDataSync configError) s r))) <= 1.
Proof.
  unfold run. focus_run.
  unfold initDataSync, fetchRemoteDbBuffer, putFileContents, commitRawBlob,
    getRemoteSha.
  crunch client; subst Q; simpl; repeat split; settle_leaf; try lia.
Qed.

(** X10. What [initDataSync] leaves behind (lines 148-218).  The directory
    of the local file exists afterwards in every case.  When it returns,
    the local file exists, exactly one periodic flush was registered, and
    the shutdown handler was registered once for SIGINT and once for
    SIGTERM (lines 216-217).  When it throws, the local file and
    [lastKnownSha] are as before and nothing was registered: a failed
    startup leaves no scheduler behind. *)
Theorem initDataSync_postconditions (s : St) (r : R) :
  localDir (final (run (initDataSync configError) s r)) = true
  /\ (result (run (initDataSync configError) s r) = inr tt ->
      localDb (final (run (initDataSync configError) s r)) <> None
      /\ intervals (final (run (initDataSync configError) s r)) = S (intervals s)
      /\ sigintHandlers (final (run (initDataSync configError) s r))
         = S (sigintHandlers s)
      /\ sigtermHandlers (final (run (initDataSync configError) s r))
         = S (sigtermHandlers s))
  /\ (forall e, result (run (initDataSync configError) s r) = inl e ->
      localDb (final (run (initDataSync configError) s r)) = localDb s
      /\ lastKnownSha (final (run (initDataSync configError) s r)) = lastKnownSha s
      /\ intervals (final (run (initDataSync configError) s r)) = intervals s
      /\ sigintHandlers (final (run (initDataSync configError) s r)) = sigintHandlers s
      /\ sigtermHandlers (final (run (initDataSync configError) s r)) = sigtermHandlers s).
Proof.
  destruct (initDataSync_summary s r) as (H1 & H2 & H3 & _). auto.
Qed.

(** ** The push *)

(** X11. The two guards of [syncNow] (lines 235-239).  With [dirty] unset
    and no force, or with no local file, [syncNow] returns at once: no
    remote call, and nothing changes; in particular a missing local file
    leaves [dirty] as it was. *)
Theorem syncNow_skips (s : St) (r : R) (force : bool) :
  (dirty s = false /\ force = false) \/ localDb s = None ->
  run (syncNow force) s r = mkRun (inr tt) s r [].
Proof.
  intros H. unfold run, syncNow. simpl.
  destruct H as [[-> ->] | H]; simpl; [reflexivity |].
  destruct (negb (dirty s) && negb force); simpl; [reflexivity |].
  now rewrite H.
Qed.

(** What holds of every run of [syncNow]. *)
Lemma syncNow_summary (s : St) (r : R) (force : bool) :
  (forall e, result (run (syncNow force) s r) = inl e ->
             final (run (syncNow force) s r) = s)
  /\ (result (run (syncNow force) s r) = inr tt ->
      negb (dirty s) && negb force = false ->
      localDb s <> None ->
      dirty (final (run (syncNow force) s r)) = false)
  /\ length (trace (run (syncNow force) s r)) <= 12
  /\ length (puts (trace (run (syncNow force) s r))) <= 4
  /\ length (ref_updates (trace (run (syncNow force) s r))) <= 1.
Proof.
  unfold run. focus_run.
  unfold syncNow, putFileContents, commitRawBlob, getRemoteSha.
  (crunch client; subst Q; cbn;
    (split; [intros ? ?; first [discriminate | reflexivity] |]);
    (split; [intros ? ? ?; first [discriminate | reflexivity | congruence] |]);
    repeat split; apply Nat.leb_le; reflexivity).
Qed.

(** X12. The outcome of [syncNow] and the state (lines 234-315).  When
    [syncNow] throws, the module state is exactly what it was: [dirty] and
    [lastKnownSha] are assigned only once a push is through, so a failed
    push stays due.  When it returns after passing its guards, [dirty] is
    false. *)
Theorem syncNow_outcome (s : St) (r : R) (force : bool) :
  (forall e, result (run (syncNow force) s r) = inl e ->
             final (run (syncNow force) s r) = s)
  /\ (result (run (syncNow force) s r) = inr tt ->
      dirty s = true \/ force = true ->
      localDb s <> None ->
      dirty (final (run (syncNow force) s r)) = false).
Proof.
  destruct (syncNow_summary s r force) as (H1 & H2 & _). split; auto.
  intros Hres Hgo Hdb. apply H2; auto.
  destruct Hgo as [-> | ->]; [reflexivity | apply andb_false_r].
Qed.

(** X13. [syncNow] only pushes: whatever the remote answers, the local
    file and its directory, the debounce timer and the runtime's
    registrations are after the call what they were before; the call
    changes [lastKnownSha] and [dirty] at most. *)
Theorem syncNow_touches_only_tracker (s : St) (r : R) (force : bool) :
  same_host s (final (run (syncNow force) s r)).
Proof.
  unfold run.
  apply (run_framed keeps_host (same_host s)); [| apply syncNow_keeps_host |].
  - intros f s' Hf Hs.
    destruct (Hf s') as (F1 & F2 & F3 & F4 & F5 & F6 & F7 & F8 & F9).
    destruct Hs as (S1 & S2 & S3 & S4 & S5 & S6 & S7 & S8 & S9).
    unfold same_host. rewrite F1, F2, F3, F4, F5, F6, F7, F8, F9. repeat split; auto.
  - repeat split.
Qed.

(** X14. The blob fallback of an update (lines 269-279).  The remote object
    exists, the conditional update is rejected for another reason than a
    missing sha, and the six calls of the blob commit resolve.  Then
    [syncNow] looks the object up once more, [lastKnownSha] is the tag of
    that lookup, [dirty] is false and the call returns normally. *)
Theorem syncNow_blob_fallback (s : St) (r r1 r2 r3 r4 r5 r6 r7 r8 r9 : R)
    (force : bool) (buf : Buffer) (e : JsError)
    (sha blob base baseTree tree commit sha' : string) :
  localDb s = Some buf ->
  dirty s = true \/ force = true ->
  client GetContent r = (inr (FileData sha), r1) ->
  sha <> "" ->
  client (CreateOrUpdateFileContents (sync_params buf (Some sha))) r1 = (inl e, r2) ->
  is_sha_missing e = false ->
  client (CreateBlob (base64 buf)) r2 = (inr blob, r3) ->
  client GetRef r3 = (inr base, r4) ->
  client (GetCommit base) r4 = (inr baseTree, r5) ->
  client (CreateTree baseTree blob) r5 = (inr tree, r6) ->
  client (CreateCommit "Sync data/app.db" tree base) r6 = (inr commit, r7) ->
  client (UpdateRef commit) r7 = (inr tt, r8) ->
  client GetContent r8 = (inr (FileData sha'), r9) ->
  result (run (syncNow force) s r) = inr tt
  /\ trace (run (syncNow force) s r)
     = [(GetContent, true);
        (CreateOrUpdateFileContents (sync_params buf (Some sha)), false);
        (CreateBlob (base64 buf), true); (GetRef, true); (GetCommit base, true);
        (CreateTree baseTree blob, true);
        (CreateCommit "Sync data/app.db" tree base, true);
        (UpdateRef commit, true); (GetContent, true)]
  /\ lastKnownSha (final (run (syncNow force) s r)) = or_null sha'
  /\ dirty (final (run (syncNow force) s r)) = false.
Proof.
  intros Hdb Hgo Hc Hsha Hu He H1 H2 H3 H4 H5 H6 H7.
  assert (Hguard : negb (dirty s) && negb force = false)
    by (destruct Hgo as [-> | ->]; [reflexivity | apply andb_false_r]).
  unfold sync_params in *.
  unfold run, syncNow, getRemoteSha, putFileContents, commitRawBlob, getContent,
    createOrUpdateFileContents, createBlob, getRef, getCommit, createTree,
    createCommit, updateRef.
  simpl. rewrite Hguard. simpl. rewrite Hdb. simpl. rewrite Hc. simpl.
  rewrite (or_null_some _ Hsha). simpl. rewrite (or_null_some _ Hsha).
  rewrite Hu. simpl. rewrite He. simpl. rewrite He. simpl.
  rewrite H1. simpl. rewrite H2. simpl. rewrite H3. simpl. rewrite H4. simpl.
  rewrite H5. simpl. rewrite H6. simpl. rewrite H7. simpl. auto.
Qed.

(** X15. A rejected retry is not followed by the blob fallback (lines
    257-268).  The remote object exists; the conditional update is
    rejected for a missing sha and the lookup inside [putFileContents]
    finds nothing, so the rejection reaches the handler of [syncNow]; its
    own fresh lookup finds a tag, and the update retried with that tag is
    rejected for another reason.  That second rejection is thrown out of
    [syncNow] from inside the handler: no call of the blob/tree/commit path
    is made, and the module state is unchanged. *)
Theorem syncNow_rejected_retry_propagates (s : St) (r r1 r2 r3 r4 r5 : R)
    (force : bool) (buf : Buffer) (e1 e404 e2 : JsError) (sha sha3 : string) :
  localDb s = Some buf ->
  dirty s = true \/ force = true ->
  client GetContent r = (inr (FileData sha), r1) ->
  sha <> "" ->
  client (CreateOrUpdateFileContents (sync_params buf (Some sha))) r1 = (inl e1, r2) ->
  is_sha_missing e1 = true ->
  client GetContent r2 = (inl e404, r3) ->
  status_is e404 404 = true ->
  client GetContent r3 = (inr (FileData sha3), r4) ->
  sha3 <> "" ->
  client (CreateOrUpdateFileContents (sync_params buf (Some sha3))) r4 = (inl e2, r5) ->
  is_sha_missing e2 = false ->
  result (run (syncNow force) s r) = inl e2
  /\ trace (run (syncNow force) s r)
     = [(GetContent, true);
        (CreateOrUpdateFileContents (sync_params buf (Some sha)), false);
        (GetContent, false); (GetContent, true);
        (CreateOrUpdateFileContents (sync_params buf (Some sha3)), false)]
  /\ existsb (fun en => is_blob_path (fst en)) (trace (run (syncNow force) s r))
     = false
  /\ final (run (syncNow force) s r) = s.
Proof.
  intros Hdb Hgo Hc Hsha Hu He1 Hc2 H404 Hc3 Hsha3 Hu3 He2.
  assert (Hguard : negb (dirty s) && negb force = false)
    by (destruct Hgo as [-> | ->]; [reflexivity | apply andb_false_r]).
  unfold sync_params in *.
  unfold run, syncNow, getRemoteSha, putFileContents, getContent,
    createOrUpdateFileContents.
  simpl. rewrite Hguard. simpl. rewrite Hdb. simpl. rewrite Hc. simpl.
  rewrite (or_null_some _ Hsha). simpl. rewrite (or_null_some _ Hsha).
  rewrite Hu. simpl. rewrite He1. simpl. rewrite Hc2. simpl. rewrite H404. simpl.
  rewrite He1. simpl. rewrite Hc3. simpl. rewrite (or_null_some _ Hsha3). simpl.
  rewrite (or_null_some _ Hsha3). rewrite Hu3. simpl. rewrite He2. simpl. auto.
Qed.

(** X16. Bounded remote traffic.  One call of [initDataSync] makes at most
    9 remote calls, of which at most 2 contents writes; one call of
    [syncNow] makes at most 12, of which at most 4 contents writes; and
    neither updates the branch reference more than once. *)
Theorem bounded_remote_traffic (s : St) (r : R) (force : bool) :
  (length (trace (run (initDataSync configError) s r)) <= 9
   /\ length (puts (trace (run (initDataSync configError) s r))) <= 2
   /\ length (ref_updates (trace (run (initDataSync configError) s r))) <= 1)
  /\ (length (trace (run (syncNow force) s r)) <= 12
      /\ length (puts (trace (run (syncNow force) s r))) <= 4
      /\ length (ref_updates (trace (run (syncNow force) s r))) <= 1).
Proof.
  destruct (initDataSync_summary s r) as (_ & _ & _ & H).
  destruct (syncNow_summary s r force) as (_ & _ & H').
  split; assumption.
Qed.

(** ** The schedulers' callbacks *)

(** X17. The signal handler always exits (lines 210-215).  Whatever the
    remote answers, the handler returns normally and ends with
    [process.exit]: a failing final push is swallowed.  With [dirty] unset
    it makes no remote call; with [dirty] set it makes exactly the calls of
    a forced [syncNow] and exits in the state that push left. *)
Theorem shutdown_always_exits (s : St) (r : R) :
  result (run shutdown s r) = inr tt
  /\ exited (final (run shutdown s r)) = true
  /\ (dirty s = false -> run shutdown s r = mkRun (inr tt) (process_exit s) r [])
  /\ (dirty s = true ->
      trace (run shutdown s r) = trace (run (syncNow true) s r)
      /\ store (run shutdown s r) = store (run (syncNow true) s r)
      /\ final (run shutdown s r) = process_exit (final (run (syncNow true) s r))).
Proof.
  unfold run, shutdown, get. cbn [bind run_from].
  destruct (dirty s).
  - rewrite run_from_bind, run_from_try_catch.
    destruct (run_from client [] (syncNow true) s r) as [[e | []] fin st tr];
      cbn; repeat split; intros; discriminate.
  - cbn. repeat split; intros; discriminate.
Qed.

(** X18. [markDataDirty] (lines 220-227) makes no remote call, always
    leaves [dirty] set and a debounce timer armed, and is idempotent:
    calling it again changes nothing. *)
Theorem markDataDirty_idempotent (s : St) (r r' : R) :
  run markDataDirty s r = mkRun (inr tt) (final (run markDataDirty s r)) r []
  /\ dirty (final (run markDataDirty s r)) = true
  /\ timer (final (run markDataDirty s r)) <> None
  /\ final (run markDataDirty (final (run markDataDirty s r)) r')
     = final (run markDataDirty s r).
Proof.
  unfold run, markDataDirty. simpl.
  destruct (timer s) eqn:Ht; simpl; rewrite ?Ht; simpl;
    repeat split; try discriminate.
Qed.

End FurtherSequential.

(** ** Calls in the event loop *)

Section FurtherLoop.

Variable configError : string -> JsError.
Variable R : Type.
Variable client : forall c : Call, R -> Settled (resp c) * R.

(** The calls made so far only prefix the trace of a run. *)
Lemma run_from_app (A : Type) (p : Prog A) :
  forall tr s r,
    run_from client tr p s r
    = mkRun (result (run_from client [] p s r)) (final (run_from client [] p s r))
            (store (run_from client [] p s r))
            (tr ++ trace (run_from client [] p s r)).
Proof.
  induction p as [a | e | k IH | f k IH | c k IH]; intros tr s r; simpl.
  - now rewrite app_nil_r.
  - now rewrite app_nil_r.
  - apply IH.
  - apply IH.
  - destruct (client c r) as [x r'].
    rewrite (IH x (tr ++ [(c, settled_ok x)])). rewrite (IH x [(c, settled_ok x)]).
    simpl. now rewrite <- app_assoc.
Qed.

(** A call that nothing interleaves with: settling its remote calls one
    after the other brings the loop to the outcome of [run]. *)
Lemma spawn_then_settle (kd : Kind) (p : Prog unit) :
  Framed keeps_running p ->
  forall (s : St) (r : R) (lg : list Entry),
    exited s = false ->
    exists n,
      exec configError client (repeat (EvSettle 0) n) (spawn kd p (mkLoop s r lg []))
      = mkLoop (final (run client p s r)) (store (run client p s r))
               (lg ++ trace (run client p s r)) [].
Proof.
  induction 1 as [a | e | k Hk IH | f k Hf Hk IH | c k Hk IH]; intros s r lg Hx.
  - exists 0. unfold spawn, run. simpl. now rewrite app_nil_r.
  - exists 0. unfold spawn, run. simpl. now rewrite app_nil_r.
  - destruct (IH s s r lg Hx) as [n Hn]. exists n. exact Hn.
  - assert (Hx' : exited (f s) = false) by (rewrite Hf; exact Hx).
    destruct (IH (f s) r lg Hx') as [n Hn]. exists n. exact Hn.
  - destruct (client c r) as [x r'] eqn:Hc.
    destruct (IH x s r' (lg ++ [(c, settled_ok x)]) Hx) as [n Hn].
    exists (S n). simpl repeat. unfold exec in *. simpl fold_left.
    assert (Hstep : step configError client (EvSettle 0)
                      (spawn kd (Await c k) (mkLoop s r lg []))
                    = spawn kd (k x) (mkLoop s r' (lg ++ [(c, settled_ok x)]) [])).
    { unfold step, spawn, settle. simpl. rewrite Hx. simpl. rewrite Hc. simpl.
      destruct (start (k x) s) as [s' [res | c' k']]; reflexivity. }
    rewrite Hstep, Hn. unfold run. simpl. rewrite Hc.
    rewrite (run_from_app _ (k x) [(c, settled_ok x)]). simpl.
    now rewrite <- app_assoc.
Qed.

(** X20. A dirty signal raised while a push is in flight is absorbed by
    it.  From an idle state: [markDataDirty], the timer fires and the push
    reads the local file; [markDataDirty] is called again and arms a second
    timer; the lookup and the update of the push resolve, which clears
    [dirty]; then the second timer fires and finds nothing to do.  In all,
    one push was made for the two signals, [dirty] is false and no timer is
    armed. *)
Theorem dirty_signal_during_push_is_absorbed (l : Loop R) (buf : Buffer)
    (sha : string) (data : PutData) (r1 r2 : R) :
  exited (state l) = false ->
  timer (state l) = None ->
  timeouts (state l) = [] ->
  inflight l = [] ->
  localDb (state l) = Some buf ->
  client GetContent (repo l) = (inr (FileData sha), r1) ->
  sha <> "" ->
  client (CreateOrUpdateFileContents (sync_params buf (Some sha))) r1
    = (inr data, r2) ->
  let h := nextHandle (state l) in
  let l' := exec configError client
                 [EvMarkDirty; EvTimeout h; EvMarkDirty; EvSettle 0; EvSettle 0;
                  EvTimeout (S h)] l in
  dirty (state l') = false
  /\ inflight l' = []
  /\ timer (state l') = None
  /\ timeouts (state l') = []
  /\ repo l' = r2
  /\ log l'
     = log l ++ [(GetContent, true);
                 (CreateOrUpdateFileContents (sync_params buf (Some sha)), true)]
  /\ lastKnownSha (state l') = or_null (content_sha data).
Proof.
  intros Hx Ht Hq Hfl Hdb Hc Hsha Hu h l'. subst h l'.
  destruct l as [st rp lg fl]. simpl in *. subst fl.
  unfold sync_params in *. unfold exec. cbn [fold_left].
  do 6 (match goal with
        | |- context [step ?cfg ?cl ?ev (mkLoop ?a ?b ?c ?d)] =>
            let E := fresh "E" in
            eassert (E : step cfg cl ev (mkLoop a b c d) = mkLoop _ _ _ _);
            [ unfold step, spawn, settle, onTimeout, with_state, markDataDirty,
                syncNow, getRemoteSha, putFileContents, getContent,
                createOrUpdateFileContents;
              repeat (progress (simpl;
                                rewrite ?Hx, ?Ht, ?Hq, ?Hdb, ?Hc, ?Hu,
                                  ?Nat.eqb_refl, ?(or_null_some _ Hsha)));
              reflexivity
            | rewrite E; clear E ]
        end).
  simpl. repeat split; auto.
  - rewrite Hq. repeat (progress (simpl; rewrite ?Nat.eqb_refl)). reflexivity.
  - now rewrite <- app_assoc.
Qed.

End FurtherLoop.

(** ** Further concrete runs *)

(** An update rejected with a 500 goes to the caller after the one write. *)
Lemma putFileContents_error_paths_witness :
  result (run Scripted.client
            (putFileContents (base64 ABC) "Sync data/app.db" (Some "s1"))
            (loaded true (Some ABC)) [Scripted.Fails Scripted.unexpected])
    = inl Scripted.unexpected
  /\ trace (run Scripted.client
              (putFileContents (base64 ABC) "Sync data/app.db" (Some "s1"))
              (loaded true (Some ABC)) [Scripted.Fails Scripted.unexpected])
     = [(CreateOrUpdateFileContents (sync_params ABC (Some "s1")), false)].
Proof.
  apply (proj1 (proj2 (putFileContents_error_paths _ Scripted.client
                         (loaded true (Some ABC)) [Scripted.Fails Scripted.unexpected]
                         [] (base64 ABC) "Sync data/app.db" (Some "s1")
                         Scripted.unexpected eq_refl))).
  reflexivity.
Defined.

(** No local file, remote absent. *)
Lemma init_never_seeds_blank_witness :
  result (run Scripted.client (initDataSync Scripted.configError)
            (loaded false None) [Scripted.Fails Scripted.not_found]) = inr tt
  /\ trace (run Scripted.client (initDataSync Scripted.configError)
              (loaded false None) [Scripted.Fails Scripted.not_found])
     = [(GetContent, false)]
  /\ localDb (final (run Scripted.client (initDataSync Scripted.configError)
                       (loaded false None) [Scripted.Fails Scripted.not_found]))
     = Some []
  /\ lastKnownSha (final (run Scripted.client (initDataSync Scripted.configError)
                            (loaded false None) [Scripted.Fails Scripted.not_found]))
     = None.
Proof.
  apply (init_never_seeds_blank Scripted.configError _ Scripted.client
           (loaded false None) [Scripted.Fails Scripted.not_found]);
    [reflexivity | now left].
Defined.

(** Local file ABC, remote absent: the remote is created with ABC. *)
Lemma init_seeds_once_witness :
  result (run Scripted.client (initDataSync Scripted.configError)
            (loaded true (Some ABC))
            [Scripted.Fails Scripted.not_found; Scripted.Put (mkPutData "s1")])
    = inr tt
  /\ trace (run Scripted.client (initDataSync Scripted.configError)
              (loaded true (Some ABC))
              [Scripted.Fails Scripted.not_found; Scripted.Put (mkPutData "s1")])
     = [(GetContent, false); (CreateOrUpdateFileContents (init_params ABC), true)]
  /\ store (run Scripted.client (initDataSync Scripted.configError)
              (loaded true (Some ABC))
              [Scripted.Fails Scripted.not_found; Scripted.Put (mkPutData "s1")])
     = []
  /\ localDb (final (run Scripted.client (initDataSync Scripted.configError)
                       (loaded true (Some ABC))
                       [Scripted.Fails Scripted.not_found;
                        Scripted.Put (mkPutData "s1")]))
     = Some ABC
  /\ lastKnownSha (final (run Scripted.client (initDataSync Scripted.configError)
                            (loaded true (Some ABC))
                            [Scripted.Fails Scripted.not_found;
                             Scripted.Put (mkPutData "s1")]))
     = Some "s1"
  /\ intervals (final (run Scripted.client (initDataSync Scripted.configError)
                         (loaded true (Some ABC))
                         [Scripted.Fails Scripted.not_found;
                          Scripted.Put (mkPutData "s1")]))
     = 1
  /\ sigintHandlers (final (run Scripted.client (initDataSync Scripted.configError)
                           (loaded true (Some ABC))
                           [Scripted.Fails Scripted.not_found;
                            Scripted.Put (mkPutData "s1")]))
     = 1
  /\ sigtermHandlers (final (run Scripted.client (initDataSync Scripted.configError)
                           (loaded true (Some ABC))
                           [Scripted.Fails Scripted.not_found;
                            Scripted.Put (mkPutData "s1")]))
     = 1.
Proof.
  apply (init_seeds_once Scripted.configError _ Scripted.client
           (loaded true (Some ABC))
           [Scripted.Fails Scripted.not_found; Scripted.Put (mkPutData "s1")]
           [] ABC (mkPutData "s1"));
    [reflexivity | reflexivity | discriminate | discriminate | reflexivity].
Defined.

(** The oversized file, remote absent: seeded through the blob commit. *)
Lemma init_seeds_large_file_witness :
  result (run Scripted.client (initDataSync Scripted.configError)
            (loaded true (Some oversized))
            (Scripted.Fails Scripted.not_found :: blob_commit_script))
    = inr tt
  /\ trace (run Scripted.client (initDataSync Scripted.configError)
              (loaded true (Some oversized))
              (Scripted.Fails Scripted.not_found :: blob_commit_script))
     = [(GetContent, false);
        (CreateBlob (base64 oversized), true); (GetRef, true);
        (GetCommit "c0", true); (CreateTree "t0" "b1", true);
        (CreateCommit "Initialize data/app.db from local (large file)" "t1" "c0",
         true);
        (UpdateRef "c1", true); (GetContent, true)]
  /\ lastKnownSha (final (run Scripted.client (initDataSync Scripted.configError)
                            (loaded true (Some oversized))
                            (Scripted.Fails Scripted.not_found :: blob_commit_script)))
     = Some "s9"
  /\ localDb (final (run Scripted.client (initDataSync Scripted.configError)
                       (loaded true (Some oversized))
                       (Scripted.Fails Scripted.not_found :: blob_commit_script)))
     = Some oversized.
Proof.
  eapply (init_seeds_large_file Scripted.configError _ Scripted.client
            (loaded true (Some oversized))
            (Scripted.Fails Scripted.not_found :: blob_commit_script)
            _ _ _ _ _ _ _ oversized "b1" "c0" "t0" "t1" "c1" "s9");
    [ reflexivity | reflexivity
    | rewrite oversized_size; apply N.lt_add_pos_r; reflexivity
    | reflexivity | reflexivity | reflexivity | reflexivity | reflexivity
    | reflexivity | reflexivity ].
Defined.

(** The create call of the seed answers 404. *)
Lemma init_seed_failure_witness :
  result (run Scripted.client (initDataSync Scripted.configError)
            (loaded true (Some ABC))
            [Scripted.Fails Scripted.not_found; Scripted.Fails Scripted.not_found])
    = inl (Scripted.configError seed_failure_message)
  /\ trace (run Scripted.client (initDataSync Scripted.configError)
              (loaded true (Some ABC))
              [Scripted.Fails Scripted.not_found; Scripted.Fails Scripted.not_found])
     = [(GetContent, false); (CreateOrUpdateFileContents (init_params ABC), false)]
  /\ lastKnownSha (final (run Scripted.client (initDataSync Scripted.configError)
                            (loaded true (Some ABC))
                            [Scripted.Fails Scripted.not_found;
                             Scripted.Fails Scripted.not_found]))
     = None
  /\ intervals (final (run Scripted.client (initDataSync Scripted.configError)
                         (loaded true (Some ABC))
                         [Scripted.Fails Scripted.not_found;
                          Scripted.Fails Scripted.not_found]))
     = 0
  /\ sigintHandlers (final (run Scripted.client (initDataSync Scripted.configError)
                           (loaded true (Some ABC))
                           [Scripted.Fails Scripted.not_found;
                            Scripted.Fails Scripted.not_found]))
     = 0
  /\ sigtermHandlers (final (run Scripted.client (initDataSync Scripted.configError)
                           (loaded true (Some ABC))
                           [Scripted.Fails Scripted.not_found;
                            Scripted.Fails Scripted.not_found]))
     = 0.
Proof.
  apply (init_seed_failure Scripted.configError _ Scripted.client
           (loaded true (Some ABC))
           [Scripted.Fails Scripted.not_found; Scripted.Fails Scripted.not_found]
           [] ABC Scripted.not_found);
    [reflexivity | reflexivity | discriminate | discriminate | reflexivity
    | reflexivity].
Defined.

(** A forced flush with no local file. *)
Lemma syncNow_skips_witness :
  run Scripted.client (syncNow true) (set_dirty true (loaded true None)) one_push_script
  = mkRun (inr tt) (set_dirty true (loaded true None)) one_push_script [].
Proof.
  apply (syncNow_skips _ Scripted.client (set_dirty true (loaded true None))
           one_push_script true).
  now right.
Defined.

Lemma syncNow_blob_fallback_witness :
  result (run Scripted.client (syncNow false) (set_dirty true (loaded true (Some ABC)))
            (Scripted.Content (FileData "s1") :: Scripted.Fails Scripted.unexpected
             :: blob_commit_script))
    = inr tt
  /\ trace (run Scripted.client (syncNow false)
              (set_dirty true (loaded true (Some ABC)))
              (Scripted.Content (FileData "s1") :: Scripted.Fails Scripted.unexpected
               :: blob_commit_script))
     = [(GetContent, true);
        (CreateOrUpdateFileContents (sync_params ABC (Some "s1")), false);
        (CreateBlob (base64 ABC), true); (GetRef, true); (GetCommit "c0", true);
        (CreateTree "t0" "b1", true);
        (CreateCommit "Sync data/app.db" "t1" "c0", true);
        (UpdateRef "c1", true); (GetContent, true)]
  /\ lastKnownSha (final (run Scripted.client (syncNow false)
                            (set_dirty true (loaded true (Some ABC)))
                            (Scripted.Content (FileData "s1")
                             :: Scripted.Fails Scripted.unexpected
                             :: blob_commit_script)))
     = Some "s9"
  /\ dirty (final (run Scripted.client (syncNow false)
                     (set_dirty true (loaded true (Some ABC)))
                     (Scripted.Content (FileData "s1")
                      :: Scripted.Fails Scripted.unexpected
                      :: blob_commit_script)))
     = false.
Proof.
  eapply (syncNow_blob_fallback _ Scripted.client
            (set_dirty true (loaded true (Some ABC)))
            (Scripted.Content (FileData "s1") :: Scripted.Fails Scripted.unexpected
             :: blob_commit_script)
            _ _ _ _ _ _ _ _ _ false ABC Scripted.unexpected
            "s1" "b1" "c0" "t0" "t1" "c1" "s9");
    first [reflexivity | discriminate | now left].
Defined.

Lemma syncNow_rejected_retry_propagates_witness :
  result (run Scripted.client (syncNow false) (set_dirty true (loaded true (Some ABC)))
            rejected_retry_script)
    = inl Scripted.unexpected
  /\ trace (run Scripted.client (syncNow false)
              (set_dirty true (loaded true (Some ABC))) rejected_retry_script)
     = [(GetContent, true);
        (CreateOrUpdateFileContents (sync_params ABC (Some "s1")), false);
        (GetContent, false); (GetContent, true);
        (CreateOrUpdateFileContents (sync_params ABC (Some "s3")), false)]
  /\ existsb (fun en => is_blob_path (fst en))
       (trace (run Scripted.client (syncNow false)
                 (set_dirty true (loaded true (Some ABC))) rejected_retry_script))
     = false
  /\ final (run Scripted.client (syncNow false)
              (set_dirty true (loaded true (Some ABC))) rejected_retry_script)
     = set_dirty true (loaded true (Some ABC)).
Proof.
  eapply (syncNow_rejected_retry_propagates _ Scripted.client
            (set_dirty true (loaded true (Some ABC))) rejected_retry_script
            _ _ _ _ _ false ABC Scripted.sha_missing Scripted.not_found
            Scripted.unexpected "s1" "s3");
    first [reflexivity | discriminate | now left].
Defined.

Lemma dirty_signal_during_push_is_absorbed_witness :
  dirty (state (exec Scripted.configError Scripted.client
                  [EvMarkDirty; EvTimeout 0; EvMarkDirty; EvSettle 0; EvSettle 0;
                   EvTimeout 1]
                  (boot true (Some ABC) one_push_script))) = false
  /\ inflight (exec Scripted.configError Scripted.client
                 [EvMarkDirty; EvTimeout 0; EvMarkDirty; EvSettle 0; EvSettle 0;
                  EvTimeout 1]
                 (boot true (Some ABC) one_push_script)) = []
  /\ timer (state (exec Scripted.configError Scripted.client
                     [EvMarkDirty; EvTimeout 0; EvMarkDirty; EvSettle 0; EvSettle 0;
                      EvTimeout 1]
                     (boot true (Some ABC) one_push_script))) = None
  /\ timeouts (state (exec Scripted.configError Scripted.client
                        [EvMarkDirty; EvTimeout 0; EvMarkDirty; EvSettle 0;
                         EvSettle 0; EvTimeout 1]
                        (boot true (Some ABC) one_push_script))) = []
  /\ repo (exec Scripted.configError Scripted.client
             [EvMarkDirty; EvTimeout 0; EvMarkDirty; EvSettle 0; EvSettle 0;
              EvTimeout 1]
             (boot true (Some ABC) one_push_script)) = []
  /\ log (exec Scripted.configError Scripted.client
            [EvMarkDirty; EvTimeout 0; EvMarkDirty; EvSettle 0; EvSettle 0;
             EvTimeout 1]
            (boot true (Some ABC) one_push_script))
     = [] ++ [(GetContent, true);
              (CreateOrUpdateFileContents (sync_params ABC (Some "s1")), true)]
  /\ lastKnownSha (state (exec Scripted.configError Scripted.client
                            [EvMarkDirty; EvTimeout 0; EvMarkDirty; EvSettle 0;
                             EvSettle 0; EvTimeout 1]
                            (boot true (Some ABC) one_push_script))) = Some "s2".
Proof.
  eapply (dirty_signal_during_push_is_absorbed Scripted.configError _ Scripted.client
            (boot true (Some ABC) one_push_script) ABC "s1" (mkPutData "s2") _ _);
    first [reflexivity | discriminate].
Defined.
